(** * Sonic-Capture: the recording session of [script.js]

    A shallow embedding of the click handlers, the timer tick and the
    visualizer frame of [src/script.js], together with the small part of the
    browser they talk to (MediaRecorder, setInterval, requestAnimationFrame).

    Conventions.
    - The module-level [let] variables of the script are the fields of
      [Globals], under the names they have in the source.
    - The properties of the DOM elements that the script reads or writes are
      the fields of [Dom].
    - What lives in the browser (active timers, pending animation frames, the
      queued stop task of the recorder, the downloads handed out) is [Browser].
    - A handler is a computation in a state-and-exception monad [M]: a
      JavaScript exception that nobody catches ends the handler and keeps the
      writes made before it.
    - Every handler runs to completion before the next event is taken (the
      script runs on one event loop). The record handler is [async]:
      [recordClick] and [reach] are the handler and the page when no other
      event is handled while it waits for [getUserMedia] or for
      [audioContext.resume()]; [Page] and [page_reach] cut the handler at
      its awaits and let any event in between.
    - Instants are integers of milliseconds; [undefined] and [NaN] in
      arithmetic are the [None] of [Num]. *)

From Stdlib Require Import ZArith String List Bool Lia DecimalString.
From stdpp Require Import base gmap.
Import ListNotations.
Open Scope Z_scope.

(** ** JavaScript numbers and strings *)

(** A number that is either an integer or [NaN]; arithmetic on [undefined]
    gives [NaN] too, so an unassigned [let] variable read as a number is
    [None]. *)
Definition Num : Type := option Z.

Definition num_sub (a b : Num) : Num :=
  match a, b with
  | Some x, Some y => Some (x - y)
  | _, _ => None
  end.

Definition num_add (a b : Num) : Num :=
  match a, b with
  | Some x, Some y => Some (x + y)
  | _, _ => None
  end.

(** [a >= b]: a comparison with [NaN] is false. *)
Definition num_ge (a : Num) (b : Z) : bool :=
  match a with
  | Some x => b <=? x
  | None => false
  end.

(** [Math.floor(a / d)] for a positive integer [d]. *)
Definition num_floor_div (a : Num) (d : Z) : Num :=
  match a with
  | Some x => Some (x / d)
  | None => None
  end.

(** [a % d]: the remainder takes the sign of the dividend. *)
Definition num_rem (a : Num) (d : Z) : Num :=
  match a with
  | Some x => Some (Z.rem x d)
  | None => None
  end.

(** [Number.prototype.toString] on integers and [NaN]. *)
Definition toString (a : Num) : string :=
  match a with
  | Some x => NilZero.string_of_int (Z.to_int x)
  | None => "NaN"%string
  end.

(** [s.padStart(2, '0')]. *)
Definition padStart2 (s : string) : string :=
  match String.length s with
  | O => "00" ++ s
  | S O => "0" ++ s
  | _ => s
  end%string.

(** ** Objects of the Web platform *)

Definition MediaStream : Type := nat.
Definition Handle : Type := nat.
Definition Blob : Type := list Byte.byte.

Inductive Error : Type :=
| TypeError
| InvalidStateError.

(** [MediaRecorder.state]. *)
Inductive RecordingState : Type :=
| inactive
| recording
| paused.

Record MediaRecorder : Type := mkMediaRecorder {
  rec_state : RecordingState;
  rec_mimeType : string;
  rec_stream : MediaStream
}.

(** [AudioContext.state]. *)
Inductive AudioContextState : Type :=
| running
| suspended.

Record AnalyserNode : Type := mkAnalyserNode {
  fftSize : Z
}.

Definition frequencyBinCount (a : AnalyserNode) : Z := fftSize a / 2.

(** What the canvas shows: nothing (a fresh canvas, or after [clearRect]) or
    one bar-spectrum frame of the given magnitudes. *)
Inductive Surface : Type :=
| Cleared
| Spectrum (magnitudes : list Z).

(** An encoding descriptor [{ mime, ext }]. *)
Record EncodingDescriptor : Type := mkType {
  mime : string;
  ext : string
}.

(** The finished recording that [onstop] builds: [new Blob(chunks, {type})]. *)
Record Artifact : Type := mkArtifact {
  art_bytes : Blob;
  art_type : option string
}.

(** ** The state *)

Record Globals : Type := mkGlobals {
  audioContext : option AudioContextState;
  analyser : option AnalyserNode;
  microphone : option MediaStream;
  mediaRecorder : option MediaRecorder;
  chunks : list Blob;
  selectedMimeType : option string;
  selectedExtension : option string;
  startTime : Num;
  timerInterval : option Handle;
  elapsedPausedTime : Num;
  pauseStartTime : Num;
  isRecording : bool;
  isPaused : bool;
  animationId : option Handle
}.

Record Dom : Type := mkDom {
  recordBtn_disabled : bool;
  recordBtn_recording : bool;      (* class 'recording' *)
  pauseBtn_disabled : bool;
  pauseBtn_paused : bool;          (* class 'paused' *)
  iconPause_display : string;
  iconPlay_display : string;
  pauseBtn_label : string;
  stopBtn_disabled : bool;
  saveBtn_disabled : bool;
  saveBtn_onclick : option Artifact;
  resetBtn_disabled : bool;
  timeDisplay : string;
  statusMessage : string;
  canvas : Surface
}.

Record Browser : Type := mkBrowser {
  intervals : gset Handle;         (* timers started by setInterval *)
  frames : gset Handle;            (* callbacks pending in requestAnimationFrame *)
  nextHandle : Handle;
  stopTasks : nat;                 (* queued dataavailable+stop tasks *)
  downloads : list (Artifact * option string);
  negotiations : nat               (* calls of getSupportedMimeType so far *)
}.

Record State : Type := mkState {
  g : Globals;
  dom : Dom;
  browser : Browser
}.

(** Field updates of [Globals]. *)
Definition with_audioContext (v : option AudioContextState) (x : Globals) : Globals :=
  mkGlobals v (analyser x) (microphone x) (mediaRecorder x) (chunks x)
  (selectedMimeType x) (selectedExtension x) (startTime x) (timerInterval x)
  (elapsedPausedTime x) (pauseStartTime x) (isRecording x) (isPaused x)
  (animationId x).
Definition with_analyser (v : option AnalyserNode) (x : Globals) : Globals :=
  mkGlobals (audioContext x) v (microphone x) (mediaRecorder x) (chunks x)
  (selectedMimeType x) (selectedExtension x) (startTime x) (timerInterval x)
  (elapsedPausedTime x) (pauseStartTime x) (isRecording x) (isPaused x)
  (animationId x).
Definition with_microphone (v : option MediaStream) (x : Globals) : Globals :=
  mkGlobals (audioContext x) (analyser x) v (mediaRecorder x) (chunks x)
  (selectedMimeType x) (selectedExtension x) (startTime x) (timerInterval x)
  (elapsedPausedTime x) (pauseStartTime x) (isRecording x) (isPaused x)
  (animationId x).
Definition with_mediaRecorder (v : option MediaRecorder) (x : Globals) : Globals :=
  mkGlobals (audioContext x) (analyser x) (microphone x) v (chunks x)
  (selectedMimeType x) (selectedExtension x) (startTime x) (timerInterval x)
  (elapsedPausedTime x) (pauseStartTime x) (isRecording x) (isPaused x)
  (animationId x).
Definition with_chunks (v : list Blob) (x : Globals) : Globals :=
  mkGlobals (audioContext x) (analyser x) (microphone x) (mediaRecorder x) v
  (selectedMimeType x) (selectedExtension x) (startTime x) (timerInterval x)
  (elapsedPausedTime x) (pauseStartTime x) (isRecording x) (isPaused x)
  (animationId x).
Definition with_selectedMimeType (v : option string) (x : Globals) : Globals :=
  mkGlobals (audioContext x) (analyser x) (microphone x) (mediaRecorder x)
  (chunks x) v (selectedExtension x) (startTime x) (timerInterval x)
  (elapsedPausedTime x) (pauseStartTime x) (isRecording x) (isPaused x)
  (animationId x).
Definition with_selectedExtension (v : option string) (x : Globals) : Globals :=
  mkGlobals (audioContext x) (analyser x) (microphone x) (mediaRecorder x)
  (chunks x) (selectedMimeType x) v (startTime x) (timerInterval x)
  (elapsedPausedTime x) (pauseStartTime x) (isRecording x) (isPaused x)
  (animationId x).
Definition with_startTime (v : Num) (x : Globals) : Globals :=
  mkGlobals (audioContext x) (analyser x) (microphone x) (mediaRecorder x)
  (chunks x) (selectedMimeType x) (selectedExtension x) v (timerInterval x)
  (elapsedPausedTime x) (pauseStartTime x) (isRecording x) (isPaused x)
  (animationId x).
Definition with_timerInterval (v : option Handle) (x : Globals) : Globals :=
  mkGlobals (audioContext x) (analyser x) (microphone x) (mediaRecorder x)
  (chunks x) (selectedMimeType x) (selectedExtension x) (startTime x) v
  (elapsedPausedTime x) (pauseStartTime x) (isRecording x) (isPaused x)
  (animationId x).
Definition with_elapsedPausedTime (v : Num) (x : Globals) : Globals :=
  mkGlobals (audioContext x) (analyser x) (microphone x) (mediaRecorder x)
  (chunks x) (selectedMimeType x) (selectedExtension x) (startTime x)
  (timerInterval x) v (pauseStartTime x) (isRecording x) (isPaused x)
  (animationId x).
Definition with_pauseStartTime (v : Num) (x : Globals) : Globals :=
  mkGlobals (audioContext x) (analyser x) (microphone x) (mediaRecorder x)
  (chunks x) (selectedMimeType x) (selectedExtension x) (startTime x)
  (timerInterval x) (elapsedPausedTime x) v (isRecording x) (isPaused x)
  (animationId x).
Definition with_isRecording (v : bool) (x : Globals) : Globals :=
  mkGlobals (audioContext x) (analyser x) (microphone x) (mediaRecorder x)
  (chunks x) (selectedMimeType x) (selectedExtension x) (startTime x)
  (timerInterval x) (elapsedPausedTime x) (pauseStartTime x) v (isPaused x)
  (animationId x).
Definition with_isPaused (v : bool) (x : Globals) : Globals :=
  mkGlobals (audioContext x) (analyser x) (microphone x) (mediaRecorder x)
  (chunks x) (selectedMimeType x) (selectedExtension x) (startTime x)
  (timerInterval x) (elapsedPausedTime x) (pauseStartTime x) (isRecording x)
  v (animationId x).
Definition with_animationId (v : option Handle) (x : Globals) : Globals :=
  mkGlobals (audioContext x) (analyser x) (microphone x) (mediaRecorder x)
  (chunks x) (selectedMimeType x) (selectedExtension x) (startTime x)
  (timerInterval x) (elapsedPausedTime x) (pauseStartTime x) (isRecording x)
  (isPaused x) v.

(** Field updates of [Dom]. *)
Definition with_recordBtn_disabled (v : bool) (d : Dom) : Dom :=
  mkDom v (recordBtn_recording d) (pauseBtn_disabled d) (pauseBtn_paused d)
  (iconPause_display d) (iconPlay_display d) (pauseBtn_label d)
  (stopBtn_disabled d) (saveBtn_disabled d) (saveBtn_onclick d)
  (resetBtn_disabled d) (timeDisplay d) (statusMessage d) (canvas d).
Definition with_recordBtn_recording (v : bool) (d : Dom) : Dom :=
  mkDom (recordBtn_disabled d) v (pauseBtn_disabled d) (pauseBtn_paused d)
  (iconPause_display d) (iconPlay_display d) (pauseBtn_label d)
  (stopBtn_disabled d) (saveBtn_disabled d) (saveBtn_onclick d)
  (resetBtn_disabled d) (timeDisplay d) (statusMessage d) (canvas d).
Definition with_pauseBtn_disabled (v : bool) (d : Dom) : Dom :=
  mkDom (recordBtn_disabled d) (recordBtn_recording d) v (pauseBtn_paused d)
  (iconPause_display d) (iconPlay_display d) (pauseBtn_label d)
  (stopBtn_disabled d) (saveBtn_disabled d) (saveBtn_onclick d)
  (resetBtn_disabled d) (timeDisplay d) (statusMessage d) (canvas d).
Definition with_pauseBtn_paused (v : bool) (d : Dom) : Dom :=
  mkDom (recordBtn_disabled d) (recordBtn_recording d) (pauseBtn_disabled d)
  v (iconPause_display d) (iconPlay_display d) (pauseBtn_label d)
  (stopBtn_disabled d) (saveBtn_disabled d) (saveBtn_onclick d)
  (resetBtn_disabled d) (timeDisplay d) (statusMessage d) (canvas d).
Definition with_iconPause_display (v : string) (d : Dom) : Dom :=
  mkDom (recordBtn_disabled d) (recordBtn_recording d) (pauseBtn_disabled d)
  (pauseBtn_paused d) v (iconPlay_display d) (pauseBtn_label d)
  (stopBtn_disabled d) (saveBtn_disabled d) (saveBtn_onclick d)
  (resetBtn_disabled d) (timeDisplay d) (statusMessage d) (canvas d).
Definition with_iconPlay_display (v : string) (d : Dom) : Dom :=
  mkDom (recordBtn_disabled d) (recordBtn_recording d) (pauseBtn_disabled d)
  (pauseBtn_paused d) (iconPause_display d) v (pauseBtn_label d)
  (stopBtn_disabled d) (saveBtn_disabled d) (saveBtn_onclick d)
  (resetBtn_disabled d) (timeDisplay d) (statusMessage d) (canvas d).
Definition with_pauseBtn_label (v : string) (d : Dom) : Dom :=
  mkDom (recordBtn_disabled d) (recordBtn_recording d) (pauseBtn_disabled d)
  (pauseBtn_paused d) (iconPause_display d) (iconPlay_display d) v
  (stopBtn_disabled d) (saveBtn_disabled d) (saveBtn_onclick d)
  (resetBtn_disabled d) (timeDisplay d) (statusMessage d) (canvas d).
Definition with_stopBtn_disabled (v : bool) (d : Dom) : Dom :=
  mkDom (recordBtn_disabled d) (recordBtn_recording d) (pauseBtn_disabled d)
  (pauseBtn_paused d) (iconPause_display d) (iconPlay_display d)
  (pauseBtn_label d) v (saveBtn_disabled d) (saveBtn_onclick d)
  (resetBtn_disabled d) (timeDisplay d) (statusMessage d) (canvas d).
Definition with_saveBtn_disabled (v : bool) (d : Dom) : Dom :=
  mkDom (recordBtn_disabled d) (recordBtn_recording d) (pauseBtn_disabled d)
  (pauseBtn_paused d) (iconPause_display d) (iconPlay_display d)
  (pauseBtn_label d) (stopBtn_disabled d) v (saveBtn_onclick d)
  (resetBtn_disabled d) (timeDisplay d) (statusMessage d) (canvas d).
Definition with_saveBtn_onclick (v : option Artifact) (d : Dom) : Dom :=
  mkDom (recordBtn_disabled d) (recordBtn_recording d) (pauseBtn_disabled d)
  (pauseBtn_paused d) (iconPause_display d) (iconPlay_display d)
  (pauseBtn_label d) (stopBtn_disabled d) (saveBtn_disabled d) v
  (resetBtn_disabled d) (timeDisplay d) (statusMessage d) (canvas d).
Definition with_resetBtn_disabled (v : bool) (d : Dom) : Dom :=
  mkDom (recordBtn_disabled d) (recordBtn_recording d) (pauseBtn_disabled d)
  (pauseBtn_paused d) (iconPause_display d) (iconPlay_display d)
  (pauseBtn_label d) (stopBtn_disabled d) (saveBtn_disabled d)
  (saveBtn_onclick d) v (timeDisplay d) (statusMessage d) (canvas d).
Definition with_timeDisplay (v : string) (d : Dom) : Dom :=
  mkDom (recordBtn_disabled d) (recordBtn_recording d) (pauseBtn_disabled d)
  (pauseBtn_paused d) (iconPause_display d) (iconPlay_display d)
  (pauseBtn_label d) (stopBtn_disabled d) (saveBtn_disabled d)
  (saveBtn_onclick d) (resetBtn_disabled d) v (statusMessage d) (canvas d).
Definition with_statusMessage (v : string) (d : Dom) : Dom :=
  mkDom (recordBtn_disabled d) (recordBtn_recording d) (pauseBtn_disabled d)
  (pauseBtn_paused d) (iconPause_display d) (iconPlay_display d)
  (pauseBtn_label d) (stopBtn_disabled d) (saveBtn_disabled d)
  (saveBtn_onclick d) (resetBtn_disabled d) (timeDisplay d) v (canvas d).
Definition with_canvas (v : Surface) (d : Dom) : Dom :=
  mkDom (recordBtn_disabled d) (recordBtn_recording d) (pauseBtn_disabled d)
  (pauseBtn_paused d) (iconPause_display d) (iconPlay_display d)
  (pauseBtn_label d) (stopBtn_disabled d) (saveBtn_disabled d)
  (saveBtn_onclick d) (resetBtn_disabled d) (timeDisplay d) (statusMessage
  d) v.

(** Field updates of [Browser]. *)
Definition with_intervals (v : gset Handle) (b : Browser) : Browser :=
  mkBrowser v (frames b) (nextHandle b) (stopTasks b) (downloads b)
  (negotiations b).
Definition with_frames (v : gset Handle) (b : Browser) : Browser :=
  mkBrowser (intervals b) v (nextHandle b) (stopTasks b) (downloads b)
  (negotiations b).
Definition with_nextHandle (v : Handle) (b : Browser) : Browser :=
  mkBrowser (intervals b) (frames b) v (stopTasks b) (downloads b)
  (negotiations b).
Definition with_stopTasks (v : nat) (b : Browser) : Browser :=
  mkBrowser (intervals b) (frames b) (nextHandle b) v (downloads b)
  (negotiations b).
Definition with_downloads (v : list (Artifact * option string)) (b : Browser) : Browser :=
  mkBrowser (intervals b) (frames b) (nextHandle b) (stopTasks b) v
  (negotiations b).
Definition with_negotiations (v : nat) (b : Browser) : Browser :=
  mkBrowser (intervals b) (frames b) (nextHandle b) (stopTasks b) (downloads
  b) v.

(** ** Handlers as computations *)

(** The result of running a handler: it returns, or an exception escapes;
    either way the writes made so far stay in the state. *)
Inductive Result (A : Type) : Type :=
| Ok (a : A) (s : State)
| Throw (e : Error) (s : State).
Arguments Ok {A} a s.
Arguments Throw {A} e s.

Definition M (A : Type) : Type := State -> Result A.

Definition ret {A : Type} (a : A) : M A := fun s => Ok a s.

Definition bind {A B : Type} (m : M A) (k : A -> M B) : M B :=
  fun s =>
    match m s with
    | Ok a s' => k a s'
    | Throw e s' => Throw e s'
    end.

Definition throw {A : Type} (e : Error) : M A := fun s => Throw e s.

Notation "'let*' x ':=' m 'in' k" := (bind m (fun x => k))
  (at level 10, x name, m at level 100, k at level 200).
Notation "m >> k" := (bind m (fun _ => k))
  (at level 90, right associativity).

(** Reading and writing the three parts of the state. *)
Definition var {A : Type} (f : Globals -> A) : M A := fun s => Ok (f (g s)) s.
Definition prop {A : Type} (f : Dom -> A) : M A := fun s => Ok (f (dom s)) s.
Definition host {A : Type} (f : Browser -> A) : M A :=
  fun s => Ok (f (browser s)) s.

Definition assign (f : Globals -> Globals) : M unit :=
  fun s => Ok tt (mkState (f (g s)) (dom s) (browser s)).
Definition render (f : Dom -> Dom) : M unit :=
  fun s => Ok tt (mkState (g s) (f (dom s)) (browser s)).
Definition effect (f : Browser -> Browser) : M unit :=
  fun s => Ok tt (mkState (g s) (dom s) (f (browser s))).

(** The state a handler leaves behind, whether it returned or threw. *)
Definition final {A : Type} (r : Result A) : State :=
  match r with
  | Ok _ s => s
  | Throw _ s => s
  end.

Definition returns {A : Type} (r : Result A) : bool :=
  match r with
  | Ok _ _ => true
  | Throw _ _ => false
  end.

(** ** What the environment answers during one event *)

Record Env : Type := mkEnv {
  now : Z;                              (* Date.now() *)
  getUserMedia : option MediaStream;    (* None: the promise is rejected *)
  isTypeSupported : string -> bool;     (* MediaRecorder.isTypeSupported *)
  byteFrequencyData : list Z;           (* analyser.getByteFrequencyData *)
  recordedData : Blob                   (* the data of the dataavailable event *)
}.

(** ** Browser interfaces the script calls *)

(** [setInterval(updateTimer, 1000)] and [requestAnimationFrame(drawVisualizer)]
    hand out a fresh handle and register the callback. *)
Definition setInterval : M Handle :=
  let* h := host nextHandle in
  effect (fun b => with_nextHandle (S h) (with_intervals ({[ h ]} ∪ intervals b) b)) >>
  ret h.

Definition requestAnimationFrame : M Handle :=
  let* h := host nextHandle in
  effect (fun b => with_nextHandle (S h) (with_frames ({[ h ]} ∪ frames b) b)) >>
  ret h.

(** [clearInterval(id)] and [cancelAnimationFrame(id)]; an [undefined] handle
    cancels nothing. *)
Definition clearInterval (id : option Handle) : M unit :=
  match id with
  | Some h => effect (fun b => with_intervals (intervals b ∖ {[ h ]}) b)
  | None => ret tt
  end.

Definition cancelAnimationFrame (id : option Handle) : M unit :=
  match id with
  | Some h => effect (fun b => with_frames (frames b ∖ {[ h ]}) b)
  | None => ret tt
  end.

(** The methods of the recorder held in [mediaRecorder], as the MediaStream
    Recording specification gives them. A method call on [undefined] is a
    [TypeError]. *)
Definition set_rec_state (st : RecordingState) (r : MediaRecorder) : MediaRecorder :=
  mkMediaRecorder st (rec_mimeType r) (rec_stream r).

Definition mediaRecorder_start : M unit :=
  let* r := var mediaRecorder in
  match r with
  | None => throw TypeError
  | Some r =>
      match rec_state r with
      | inactive => assign (with_mediaRecorder (Some (set_rec_state recording r)))
      | _ => throw InvalidStateError
      end
  end.

Definition mediaRecorder_pause : M unit :=
  let* r := var mediaRecorder in
  match r with
  | None => throw TypeError
  | Some r =>
      match rec_state r with
      | inactive => throw InvalidStateError
      | recording => assign (with_mediaRecorder (Some (set_rec_state paused r)))
      | paused => ret tt
      end
  end.

Definition mediaRecorder_resume : M unit :=
  let* r := var mediaRecorder in
  match r with
  | None => throw TypeError
  | Some r =>
      match rec_state r with
      | inactive => throw InvalidStateError
      | paused => assign (with_mediaRecorder (Some (set_rec_state recording r)))
      | recording => ret tt
      end
  end.

(** [stop()] inactivates the recorder and queues the task that will fire
    [dataavailable] and then [stop]; on an inactive recorder it does nothing. *)
Definition mediaRecorder_stop : M unit :=
  let* r := var mediaRecorder in
  match r with
  | None => throw TypeError
  | Some r =>
      match rec_state r with
      | inactive => ret tt
      | _ =>
          assign (with_mediaRecorder (Some (set_rec_state inactive r))) >>
          effect (fun b => with_stopTasks (S (stopTasks b)) b)
      end
  end.

(** ** The script *)

Local Open Scope string_scope.

Definition MAX_RECORDING_TIME_MS : Z := 60 * 60 * 1000.

(** The candidate list of [getSupportedMimeType], in its priority order. *)
Definition types : list EncodingDescriptor :=
  [ mkType "audio/mp4" "m4a";
    mkType "audio/aac" "aac";
    mkType "audio/webm;codecs=opus" "webm";
    mkType "audio/webm" "webm" ].

(** The [for (const type of types)] loop: the first candidate the
    environment supports, [None] (the script's [null]) when the loop ends. *)
Fixpoint firstSupported (supported : string -> bool)
    (candidates : list EncodingDescriptor) : option EncodingDescriptor :=
  match candidates with
  | [] => None
  | type :: rest =>
      if supported (mime type) then Some type
      else firstSupported supported rest
  end.

Definition getSupportedMimeType (supported : string -> bool)
    : option EncodingDescriptor :=
  firstSupported supported types.

(** The call of [getSupportedMimeType] in [setupAudio], counted. *)
Definition negotiate (e : Env) : M (option EncodingDescriptor) :=
  effect (fun b => with_negotiations (S (negotiations b)) b) >>
  ret (getSupportedMimeType (isTypeSupported e)).

Definition setupAudio (e : Env) : M bool :=
  match getUserMedia e with
  | None =>
      (* catch (err) *)
      render (with_statusMessage
                "Error: Additional permissions needed or mic not found.") >>
      ret false
  | Some stream =>
      assign (with_audioContext (Some running)) >>
      assign (with_analyser (Some (mkAnalyserNode 2048))) >>
      assign (with_microphone (Some stream)) >>
      assign (with_analyser (Some (mkAnalyserNode 256))) >>
      let* supportedType := negotiate e in
      match supportedType with
      | None =>
          render (with_statusMessage
                    "Error: No supported audio format found.") >>
          ret false
      | Some type =>
          assign (with_selectedMimeType (Some (mime type))) >>
          assign (with_selectedExtension (Some (ext type))) >>
          assign (with_mediaRecorder
                    (Some (mkMediaRecorder inactive (mime type) stream))) >>
          ret true
      end
  end.

(** [mediaRecorder.ondataavailable]. *)
Definition ondataavailable (data : Blob) : M unit :=
  assign (fun x => with_chunks (chunks x ++ [data])%list x).

(** [mediaRecorder.onstop]; the closure it stores in [saveBtn.onclick] keeps
    the blob it has just built. *)
Definition onstop : M unit :=
  let* cs := var chunks in
  let* type := var selectedMimeType in
  assign (with_chunks []) >>
  render (with_saveBtn_disabled false) >>
  render (with_resetBtn_disabled false) >>
  render (with_saveBtn_onclick (Some (mkArtifact (concat cs) type))) >>
  render (with_statusMessage "Recording finished. Ready to save or reset.").

(** The [Uint8Array] of [n] magnitudes that [getByteFrequencyData] fills. *)
Definition sample (n : nat) (data : list Z) : list Z :=
  firstn n (data ++ repeat 0 n)%list.

Definition drawVisualizer (e : Env) : M unit :=
  let* rec := var isRecording in
  let* pau := var isPaused in
  if negb rec || pau then ret tt
  else
    let* id := requestAnimationFrame in
    assign (with_animationId (Some id)) >>
    let* a := var analyser in
    match a with
    | None => throw TypeError
    | Some a =>
        render (with_canvas
                  (Spectrum (sample (Z.to_nat (frequencyBinCount a))
                                    (byteFrequencyData e))))
    end.

Definition stopRecording : M unit :=
  let* rec := var isRecording in
  if negb rec then ret tt
  else
    mediaRecorder_stop >>
    assign (with_isRecording false) >>
    assign (with_isPaused false) >>
    (let* id := var timerInterval in clearInterval id) >>
    (let* id := var animationId in cancelAnimationFrame id) >>
    render (with_recordBtn_recording false) >>
    render (with_recordBtn_disabled false) >>
    render (with_pauseBtn_disabled true) >>
    render (with_pauseBtn_paused false) >>
    render (with_iconPause_display "block") >>
    render (with_iconPlay_display "none") >>
    render (with_pauseBtn_label "Pause") >>
    render (with_stopBtn_disabled true) >>
    render (with_canvas Cleared).

(** [now - startTime - elapsedPausedTime]. *)
Definition totalElapsed (now : Z) (x : Globals) : Num :=
  num_sub (num_sub (Some now) (startTime x)) (elapsedPausedTime x).

(** The [mm:ss] text of [updateTimer]. *)
Definition formatTime (total : Num) : string :=
  let totalSeconds := num_floor_div total 1000 in
  let minutes := padStart2 (toString (num_floor_div totalSeconds 60)) in
  let seconds := padStart2 (toString (num_rem totalSeconds 60)) in
  minutes ++ ":" ++ seconds.

Definition updateTimer (e : Env) : M unit :=
  let* pau := var isPaused in
  if pau then ret tt
  else
    let* total := var (totalElapsed (now e)) in
    if num_ge total MAX_RECORDING_TIME_MS then
      stopRecording >>
      render (with_statusMessage "Recording auto-stopped (60m limit reached).")
    else
      render (with_timeDisplay (formatTime total)).

Definition resetApp : M unit :=
  assign (with_chunks []) >>
  assign (with_elapsedPausedTime (Some 0)) >>
  render (with_timeDisplay "00:00") >>
  render (with_statusMessage "Ready to record") >>
  render (with_saveBtn_disabled true) >>
  render (with_resetBtn_disabled true) >>
  (let* rec := var isRecording in if rec then stopRecording else ret tt) >>
  render (with_canvas Cleared).

(** The click handler of [recordBtn], run from its first line to its last
    with no other event in between. *)
Definition recordClick (e : Env) : M unit :=
  let* rec := var isRecording in
  if rec then ret tt
  else
    let* ctx := var audioContext in
    let* success :=
      match ctx with
      | None => setupAudio e
      | Some suspended => assign (with_audioContext (Some running)) >> ret true
      | Some running => ret true
      end in
    if negb success then ret tt
    else
      mediaRecorder_start >>
      assign (with_isRecording true) >>
      assign (with_isPaused false) >>
      assign (with_startTime (Some (now e))) >>
      assign (with_elapsedPausedTime (Some 0)) >>
      (let* id := setInterval in assign (with_timerInterval (Some id))) >>
      render (with_recordBtn_recording true) >>
      render (with_recordBtn_disabled true) >>
      render (with_pauseBtn_disabled false) >>
      render (with_stopBtn_disabled false) >>
      render (with_saveBtn_disabled true) >>
      render (with_resetBtn_disabled true) >>
      render (with_statusMessage "Recording in progress...") >>
      drawVisualizer e.

(** The click handler of [pauseBtn]. *)
Definition pauseClick (e : Env) : M unit :=
  let* rec := var isRecording in
  if negb rec then ret tt
  else
    let* pau := var isPaused in
    if pau then
      (* RESUME *)
      mediaRecorder_resume >>
      assign (with_isPaused false) >>
      let* pauseStart := var pauseStartTime in
      let pauseDuration := num_sub (Some (now e)) pauseStart in
      assign (fun x =>
        with_elapsedPausedTime (num_add (elapsedPausedTime x) pauseDuration) x) >>
      render (with_pauseBtn_paused false) >>
      render (with_iconPause_display "block") >>
      render (with_iconPlay_display "none") >>
      render (with_pauseBtn_label "Pause") >>
      render (with_statusMessage "Recording resumed...") >>
      drawVisualizer e
    else
      (* PAUSE *)
      mediaRecorder_pause >>
      assign (with_isPaused true) >>
      assign (with_pauseStartTime (Some (now e))) >>
      render (with_pauseBtn_paused true) >>
      render (with_iconPause_display "none") >>
      render (with_iconPlay_display "block") >>
      render (with_pauseBtn_label "Resume") >>
      render (with_statusMessage "Recording paused.") >>
      (let* id := var animationId in cancelAnimationFrame id).

(** [saveBtn.onclick]: unset until the first [onstop]; the file suffix is the
    value of [selectedExtension] at the click. *)
Definition saveClick : M unit :=
  let* handler := prop saveBtn_onclick in
  match handler with
  | None => ret tt
  | Some blob =>
      let* suffix := var selectedExtension in
      effect (fun b => with_downloads (downloads b ++ [(blob, suffix)])%list b) >>
      render (with_statusMessage "Recording saved!")
  end.

(** ** The event loop *)

Inductive Event : Type :=
| RecordClick
| PauseClick
| StopClick
| SaveClick
| ResetClick
| TimerTick (id : Handle)       (* the interval [id] fires *)
| AnimationFrame (id : Handle)  (* the pending frame [id] is run *)
| StopTask                      (* the recorder's queued dataavailable+stop *)
| Suspend.                      (* the browser suspends the audio context *)

Definition step (e : Env) (ev : Event) : M unit :=
  match ev with
  | RecordClick => recordClick e
  | PauseClick => pauseClick e
  | StopClick => stopRecording
  | SaveClick => saveClick
  | ResetClick => resetApp
  | TimerTick _ => updateTimer e
  | AnimationFrame id =>
      effect (fun b => with_frames (frames b ∖ {[ id ]}) b) >>
      drawVisualizer e
  | StopTask =>
      effect (fun b => with_stopTasks (Nat.pred (stopTasks b)) b) >>
      ondataavailable (recordedData e) >>
      onstop
  | Suspend =>
      assign (fun x =>
        match audioContext x with
        | Some _ => with_audioContext (Some suspended) x
        | None => x
        end)
  end.

(** When the browser can deliver an event. Clicks are delivered whatever the
    [disabled] flag of their button says, so that the handlers' own guards
    are what is verified. *)
Definition enabled (ev : Event) (s : State) : bool :=
  match ev with
  | TimerTick id => bool_decide (id ∈ intervals (browser s))
  | AnimationFrame id => bool_decide (id ∈ frames (browser s))
  | StopTask => negb (Nat.eqb (stopTasks (browser s)) 0)
  | _ => true
  end.

Definition initialGlobals : Globals :=
  mkGlobals None None None None [] None None None None (Some 0) None
            false false None.

(** Modelled from the spec: the page markup is not part of the sources; the
    initial affordances are "recording enabled, save/reset disabled", pause
    and stop follow the guard table, the time display reads 00:00 and the
    status line reads the ready message that [resetApp] restores. *)
Definition initialDom : Dom :=
  mkDom false false true false "" "" "Pause" true true None true
        "00:00" "Ready to record" Cleared.

Definition initialBrowser : Browser := mkBrowser ∅ ∅ O O [] O.

Definition initial : State := mkState initialGlobals initialDom initialBrowser.

(** The states the page can be in at instant [t] when events arrive one
    after the other, each handled to completion with no event taken while
    a record handler waits, and with a clock that never runs backwards.
    These are some of the states of the page: all of them are in
    [page_reach_steady] below (lemma [reach_page_reach]). *)
Inductive reach : Z -> State -> Prop :=
| reach_initial (t : Z) : reach t initial
| reach_step (t : Z) (s : State) (e : Env) (ev : Event) :
    reach t s ->
    t <= now e ->
    enabled ev s = true ->
    reach (now e) (final (step e ev s)).

(** ** The session state of the spec, read off the script's variables *)

Inductive SessionState : Type :=
| Idle
| Recording
| Paused
| Stopped.

(** [Stopped]: a session has ended and its recording is being finalised
    (a stop task is queued) or is on offer (reset is enabled). *)
Definition phase (s : State) : SessionState :=
  if isRecording (g s) then
    if isPaused (g s) then Paused else Recording
  else if negb (Nat.eqb (stopTasks (browser s)) 0)
          || negb (resetBtn_disabled (dom s))
       then Stopped else Idle.

(** ** Invariants of the reachable states *)

Definition AUTO_STOPPED : string := "Recording auto-stopped (60m limit reached).".
Definition FINISHED : string := "Recording finished. Ready to save or reset.".

(** The recorder exists and is in state [st]. *)
Definition recorder_in (st : RecordingState) (x : Globals) : Prop :=
  match mediaRecorder x with
  | Some r => rec_state r = st
  | None => False
  end.

(** The flags [isRecording]/[isPaused] agree with the recorder, the timer,
    the pending frame and the buttons. *)
Definition session_inv (s : State) : Prop :=
  if isRecording (g s) then
    recorder_in (if isPaused (g s) then paused else recording) (g s) /\
    match timerInterval (g s) with
    | Some id => intervals (browser s) = {[ id ]}
    | None => False
    end /\
    (if isPaused (g s) then frames (browser s) = ∅
     else match animationId (g s) with
          | Some id => frames (browser s) = {[ id ]}
          | None => False
          end) /\
    recordBtn_disabled (dom s) = true /\
    pauseBtn_disabled (dom s) = false /\
    stopBtn_disabled (dom s) = false /\
    statusMessage (dom s) <> AUTO_STOPPED
  else
    isPaused (g s) = false /\
    match mediaRecorder (g s) with
    | Some r => rec_state r = inactive
    | None => True
    end /\
    intervals (browser s) = ∅ /\
    frames (browser s) = ∅ /\
    recordBtn_disabled (dom s) = false /\
    pauseBtn_disabled (dom s) = true /\
    stopBtn_disabled (dom s) = true /\
    pauseBtn_label (dom s) = "Pause" /\
    recordBtn_recording (dom s) = false /\
    pauseBtn_paused (dom s) = false.

(** What exists once the capture pipeline has been set up, and what cannot
    exist before. *)
Definition pipeline_inv (s : State) : Prop :=
  match mediaRecorder (g s) with
  | Some _ =>
      audioContext (g s) <> None /\
      analyser (g s) <> None /\
      selectedMimeType (g s) <> None /\
      negotiations (browser s) = 1%nat
  | None =>
      stopTasks (browser s) = O /\
      resetBtn_disabled (dom s) = true /\
      selectedMimeType (g s) = None /\
      isRecording (g s) = false /\
      match audioContext (g s) with
      | Some _ => negotiations (browser s) = 1%nat
      | None => negotiations (browser s) = O /\ analyser (g s) = None
      end
  end.

(** The elapsed-time accounting during a session, at instant [t]. *)
Definition clock_inv (t : Z) (s : State) : Prop :=
  if isRecording (g s) then
    match startTime (g s), elapsedPausedTime (g s) with
    | Some st, Some p =>
        0 <= p /\
        if isPaused (g s) then
          match pauseStartTime (g s) with
          | Some ps => st + p <= ps /\ ps <= t
          | None => False
          end
        else st + p <= t
    | _, _ => False
    end
  else True.

Definition Inv (t : Z) (s : State) : Prop :=
  session_inv s /\ pipeline_inv s /\ clock_inv t s.

(** The recording time accumulated by instant [t]: while paused it stands
    at what it was when the pause began. *)
Definition recordedTime (t : Z) (s : State) : Num :=
  if isPaused (g s) then
    num_sub (num_sub (pauseStartTime (g s)) (startTime (g s)))
            (elapsedPausedTime (g s))
  else totalElapsed t (g s).

(** ** The guard table and three sentences of the spec, as they are worded *)

(** The guard table of the spec: from which session state each request is
    valid. Events that are no requests are valid anywhere. *)
Definition valid_in (ev : Event) (p : SessionState) : bool :=
  match ev, p with
  | RecordClick, Idle => true
  | RecordClick, _ => false
  | (PauseClick | StopClick), (Recording | Paused) => true
  | (PauseClick | StopClick), _ => false
  | (SaveClick | ResetClick), Stopped => true
  | (SaveClick | ResetClick), _ => false
  | _, _ => true
  end.

(** "Requests outside their valid state are ignored (no-op)". *)
Definition invalid_requests_ignored_as_stated : Prop :=
  forall (t : Z) (s : State) (e : Env) (ev : Event),
    reach t s -> valid_in ev (phase s) = false -> step e ev s = Ok tt s.

(** "On any clock tick where net elapsed is at least the maximum, the
    session auto-stops". *)
Definition auto_stop_on_any_tick_as_stated : Prop :=
  forall (t : Z) (s : State) (e : Env) (id : Handle),
    reach t s -> t <= now e -> enabled (TimerTick id) s = true ->
    num_ge (totalElapsed (now e) (g s)) MAX_RECORDING_TIME_MS = true ->
    phase (final (step e (TimerTick id) s)) = Stopped /\
    statusMessage (dom (final (step e (TimerTick id) s))) = AUTO_STOPPED.

(** "resume adds (now - pauseStart) to cumulative paused duration and clears
    pause-start". *)
Definition resume_clears_pause_start_as_stated : Prop :=
  forall (t : Z) (s : State) (e e' : Env),
    reach t s -> phase s = Recording -> t <= now e -> now e <= now e' ->
    let s1 := final (step e PauseClick s) in
    let s2 := final (step e' PauseClick s1) in
    pauseStartTime (g s1) = Some (now e) /\
    elapsedPausedTime (g s2) =
      num_add (elapsedPausedTime (g s)) (Some (now e' - now e)) /\
    pauseStartTime (g s2) = None.

(** No candidate of [l] is supported. *)
Definition unsupported_all (supported : string -> bool)
    (l : list EncodingDescriptor) : Prop :=
  Forall (fun type => supported (mime type) = false) l.

(** What the spec calls affordances and display. *)
Definition affordances (s : State) : bool * bool * bool * bool * bool :=
  (recordBtn_disabled (dom s), pauseBtn_disabled (dom s),
   stopBtn_disabled (dom s), saveBtn_disabled (dom s),
   resetBtn_disabled (dom s)).

Definition display (s : State) : string * string * Surface :=
  (timeDisplay (dom s), statusMessage (dom s), canvas (dom s)).

(** ** Sample environments and states *)

(** An environment that grants the microphone and supports every encoding. *)
Definition granted (t : Z) : Env :=
  mkEnv t (Some 1%nat) (fun _ => true) [] [].

(** The microphone is granted but no candidate encoding is supported. *)
Definition unsupported (t : Z) : Env :=
  mkEnv t (Some 1%nat) (fun _ => false) [] [].

(** The permission prompt is refused. *)
Definition denied (t : Z) : Env :=
  mkEnv t None (fun _ => true) [] [].

Definition s_recording : State := final (step (granted 0) RecordClick initial).
Definition s_paused : State := final (step (granted 1000) PauseClick s_recording).

(** A session whose last tick came at 59:59.9 and that is paused at
    60:00.5, before the next tick. *)
Definition s_ticked : State :=
  final (step (granted 3599900) (TimerTick 0%nat) s_recording).
Definition s_paused_late : State :=
  final (step (granted 3600500) PauseClick s_ticked).

Definition s_stopping : State := final (step (granted 2000) StopClick s_recording).
Definition s_stopped : State := final (step (granted 2000) StopTask s_stopping).
Definition s_unsupported : State :=
  final (step (unsupported 0) RecordClick initial).

(** ** The download name of [saveBtn.onclick] *)

From Stdlib Require Import Ascii.

(** [.replace(/:/g, "-")]. *)
Fixpoint replaceColons (s : string) : string :=
  match s with
  | EmptyString => EmptyString
  | String c rest =>
      String (if Ascii.eqb c ":" then "-"%char else c) (replaceColons rest)
  end.

(** The template literal assigned to [a.download], for the text [iso] that
    [new Date().toISOString()] returns; [.slice(0, 19)] keeps its first 19
    characters, and an [undefined] suffix prints as "undefined". *)
Definition downloadName (iso : string) (suffix : option string) : string :=
  "recording_" ++ replaceColons (substring 0 19 iso) ++ "." ++
  match suffix with
  | Some x => x
  | None => "undefined"
  end.

(** ** Vocabulary of the further properties *)

(** The decimal digit [d] as a character, and a number below 100 written
    with two digits. *)
Definition digit (d : Z) : ascii := ascii_of_nat (48 + Z.to_nat d).

Definition two_digits (n : Z) : string :=
  String (digit (n / 10)) (String (digit (n mod 10)) EmptyString).

Definition mm_ss (m s : Z) : string := two_digits m ++ ":" ++ two_digits s.

(** No character of [s] is a colon. *)
Definition colon_free (s : string) : bool :=
  forallb (fun c => negb (Ascii.eqb c ":")) (list_ascii_of_string s).

(** The pause button and the record button show the flags. *)
Definition ui_inv (s : State) : Prop :=
  recordBtn_recording (dom s) = isRecording (g s) /\
  pauseBtn_paused (dom s) = isPaused (g s) /\
  if isPaused (g s) then
    pauseBtn_label (dom s) = "Resume" /\
    iconPause_display (dom s) = "none" /\
    iconPlay_display (dom s) = "block"
  else
    pauseBtn_label (dom s) = "Pause" /\
    iconPause_display (dom s) <> "none" /\
    iconPlay_display (dom s) <> "block".

(** The chunk buffer is empty between events, the analyser has the FFT size
    the script gave it, the selected encoding is one of the candidates and
    is the one the recorder and the finished recording carry, and the
    recorder records the stream of the microphone source. *)
Definition encoding_inv (s : State) : Prop :=
  chunks (g s) = [] /\
  match analyser (g s) with
  | Some a => fftSize a = 256
  | None => True
  end /\
  match selectedMimeType (g s), selectedExtension (g s) with
  | Some m, Some x =>
      In (mkType m x) types /\
      match mediaRecorder (g s) with
      | Some r => rec_mimeType r = m /\ microphone (g s) = Some (rec_stream r)
      | None => False
      end /\
      match saveBtn_onclick (dom s) with
      | Some a => art_type a = Some m
      | None => True
      end
  | None, None =>
      mediaRecorder (g s) = None /\ saveBtn_onclick (dom s) = None
  | _, _ => False
  end.

(** The time display reads [mm:ss] with both parts below 60. *)
Definition display_inv (s : State) : Prop :=
  exists m sec : Z,
    0 <= m < 60 /\ 0 <= sec < 60 /\ timeDisplay (dom s) = mm_ss m sec.

(** * The record handler across its awaits

    [recordClick] is the record handler when nothing else happens while it
    waits. The handler is [async]: it gives the event loop back at
    [await navigator.mediaDevices.getUserMedia(...)] (line 58, inside
    [setupAudio]), at [await setupAudio()] (line 208) and at
    [await audioContext.resume()] (line 211). While it is suspended
    [isRecording] is still false, [audioContext] is still what it was and
    the record button is not yet disabled (that is line 222), so any event
    can be handled in between, a second record click included. [Page] and
    [page_step] are the page with the handler cut at these three points. *)

(** Lines 214 to 229: what the record handler does after the [if] of lines
    207 to 212. *)
Definition recordTail (e : Env) : M unit :=
  mediaRecorder_start >>
  assign (with_isRecording true) >>
  assign (with_isPaused false) >>
  assign (with_startTime (Some (now e))) >>
  assign (with_elapsedPausedTime (Some 0)) >>
  (let* id := setInterval in assign (with_timerInterval (Some id))) >>
  render (with_recordBtn_recording true) >>
  render (with_recordBtn_disabled true) >>
  render (with_pauseBtn_disabled false) >>
  render (with_stopBtn_disabled false) >>
  render (with_saveBtn_disabled true) >>
  render (with_resetBtn_disabled true) >>
  render (with_statusMessage "Recording in progress...") >>
  drawVisualizer e.

(** The promise of [audioContext.resume()] is fulfilled: the context
    runs. *)
Definition audioContext_resumed : M unit :=
  assign (fun x =>
    match audioContext x with
    | Some _ => with_audioContext (Some running) x
    | None => x
    end).

(** Where a record handler is suspended. *)
Inductive Await : Type :=
| AwaitGetUserMedia                 (* line 58: setupAudio waits for the stream *)
| AwaitSetupAudio (success : bool)  (* line 208: setupAudio has returned success *)
| AwaitResume.                      (* line 211 *)

Record Page : Type := mkPage {
  current : State;
  awaiting : list Await             (* the suspended record handlers *)
}.

(** What [setupAudio] resolved to. *)
Definition resolved (r : Result bool) : bool :=
  match r with
  | Ok success _ => success
  | Throw _ _ => false
  end.

(** A record click, up to the first [await] of the handler (lines 205 to
    211); with a running audio context there is none and the handler runs
    to its end. *)
Definition recordBegin (e : Env) (p : Page) : Page :=
  if isRecording (g (current p)) then p
  else
    match audioContext (g (current p)) with
    | None => mkPage (current p) (awaiting p ++ [AwaitGetUserMedia])
    | Some suspended => mkPage (current p) (awaiting p ++ [AwaitResume])
    | Some running => mkPage (final (recordTail e (current p))) (awaiting p)
    end.

(** The [i]-th suspended handler goes on to its next [await], or to its
    end. The answer of [getUserMedia] is the one of [e]. *)
Definition continue (e : Env) (i : nat) (p : Page) : Page :=
  match awaiting p !! i with
  | None => p
  | Some AwaitGetUserMedia =>
      mkPage (final (setupAudio e (current p)))
             (<[ i := AwaitSetupAudio (resolved (setupAudio e (current p))) ]>
                (awaiting p))
  | Some (AwaitSetupAudio success) =>
      mkPage (if success then final (recordTail e (current p)) else current p)
             (delete i (awaiting p))
  | Some AwaitResume =>
      mkPage (final ((audioContext_resumed >> recordTail e) (current p)))
             (delete i (awaiting p))
  end.

Inductive PageEvent : Type :=
| Deliver (ev : Event)   (* the event loop takes [ev]; a record click runs
                            up to the first await of its handler *)
| Continue (i : nat).    (* the promise the [i]-th suspended handler waits
                            for has settled *)

Definition page_step (e : Env) (pev : PageEvent) (p : Page) : Page :=
  match pev with
  | Deliver RecordClick => recordBegin e p
  | Deliver ev => mkPage (final (step e ev (current p))) (awaiting p)
  | Continue i => continue e i p
  end.

Definition page_enabled (pev : PageEvent) (p : Page) : bool :=
  match pev with
  | Deliver ev => enabled ev (current p)
  | Continue i =>
      match awaiting p !! i with
      | Some _ => true
      | None => false
      end
  end.

Definition initialPage : Page := mkPage initial [].

(** The states the page can be in, whatever [Date.now()] answers from one
    event to the next. Every order of events and continuations is allowed;
    the orders a browser produces are among them. *)
Inductive page_reach : Page -> Prop :=
| page_reach_initial : page_reach initialPage
| page_reach_step (p : Page) (e : Env) (pev : PageEvent) :
    page_reach p ->
    page_enabled pev p = true ->
    page_reach (page_step e pev p).

(** The same, at instant [t], when the clock is never set back. *)
Inductive page_reach_steady : Z -> Page -> Prop :=
| steady_initial (t : Z) : page_reach_steady t initialPage
| steady_step (t : Z) (p : Page) (e : Env) (pev : PageEvent) :
    page_reach_steady t p ->
    t <= now e ->
    page_enabled pev p = true ->
    page_reach_steady (now e) (page_step e pev p).

(** A run inside one recording: time passes and events are delivered, each
    leaving [isRecording] set, and no suspended record handler goes on (it
    would start the next recording). *)
Inductive recording_run : Z -> Page -> Z -> Page -> Prop :=
| recording_wait (t t' : Z) (p : Page) : t <= t' -> recording_run t p t' p
| recording_event (t t' : Z) (p p' : Page) (e : Env) (ev : Event) :
    recording_run t p t' p' ->
    t' <= now e ->
    enabled ev (current p') = true ->
    isRecording (g (current (page_step e (Deliver ev) p'))) = true ->
    recording_run t p (now e) (page_step e (Deliver ev) p').

(** ** Invariants of the page *)

(** What holds in every state of [page_reach]: the handles stored in
    [timerInterval] and [animationId] are live during a recording and dead
    outside, the record, pause and stop buttons follow [isRecording], the
    pause button reads "Resume" while [isPaused], and a recorder comes with
    the rest of the capture pipeline. *)
Definition page_inv (s : State) : Prop :=
  (if isRecording (g s) then
     match mediaRecorder (g s) with Some _ => True | None => False end /\
     match timerInterval (g s) with
     | Some id => id ∈ intervals (browser s)
     | None => False
     end /\
     (if isPaused (g s) then True
      else match animationId (g s) with
           | Some id => id ∈ frames (browser s)
           | None => False
           end) /\
     recordBtn_disabled (dom s) = true /\
     pauseBtn_disabled (dom s) = false /\
     stopBtn_disabled (dom s) = false /\
     recordBtn_recording (dom s) = true
   else
     isPaused (g s) = false /\
     match timerInterval (g s) with
     | Some id => id ∉ intervals (browser s)
     | None => True
     end /\
     recordBtn_disabled (dom s) = false /\
     pauseBtn_disabled (dom s) = true /\
     stopBtn_disabled (dom s) = true /\
     recordBtn_recording (dom s) = false /\
     pauseBtn_label (dom s) = "Pause" /\
     pauseBtn_paused (dom s) = false /\
     iconPause_display (dom s) <> "none" /\
     iconPlay_display (dom s) <> "block") /\
  (if isRecording (g s) && negb (isPaused (g s)) then True
   else match animationId (g s) with
        | Some id => id ∉ frames (browser s)
        | None => True
        end) /\
  (if isPaused (g s) then
     pauseBtn_label (dom s) = "Resume" /\
     pauseBtn_paused (dom s) = true /\
     iconPause_display (dom s) = "none" /\
     iconPlay_display (dom s) = "block"
   else True) /\
  match mediaRecorder (g s) with
  | Some r =>
      match audioContext (g s) with Some _ => True | None => False end /\
      match analyser (g s) with Some _ => True | None => False end /\
      match microphone (g s) with Some _ => True | None => False end /\
      selectedMimeType (g s) = Some (rec_mimeType r)
  | None => True
  end /\
  match analyser (g s) with
  | Some a => fftSize a = 256
  | None => True
  end.

(** The variables of the accounting hold numbers whenever they are read:
    [startTime] during a recording, [elapsedPausedTime] once [startTime] is
    set, [pauseStartTime] during a pause. *)
Definition page_numbers_inv (s : State) : Prop :=
  match startTime (g s) with
  | None => isRecording (g s) = false /\ isPaused (g s) = false
  | Some _ =>
      match elapsedPausedTime (g s) with
      | Some _ =>
          if isPaused (g s) then
            match pauseStartTime (g s) with
            | Some _ => True
            | None => False
            end
          else True
      | None => False
      end
  end.

(** The accounting of the time at instant [t], when the clock is never set
    back: a timer exists only once [startTime] is set, and from then on
    start plus paused time lies in the past. *)
Definition page_clock_inv (t : Z) (s : State) : Prop :=
  match startTime (g s) with
  | None =>
      intervals (browser s) = ∅ /\
      isRecording (g s) = false /\
      isPaused (g s) = false
  | Some st =>
      match elapsedPausedTime (g s) with
      | Some p =>
          0 <= p /\
          if isPaused (g s) then
            match pauseStartTime (g s) with
            | Some ps => st + p <= ps /\ ps <= t
            | None => False
            end
          else st + p <= t
      | None => False
      end
  end.

(** ** Two sentences of the spec, as they are worded, on the page *)

(** "net elapsed time ... is always greater than or equal to 0", at every
    reading of the clock during a session. *)
Definition net_elapsed_nonnegative_as_stated : Prop :=
  forall (p : Page) (e : Env),
    page_reach p -> isRecording (g (current p)) = true ->
    exists n : Z,
      totalElapsed (now e) (g (current p)) = Some n /\ 0 <= n.

(** "negotiated at most once per page lifetime". *)
Definition negotiated_at_most_once_as_stated : Prop :=
  forall p : Page,
    page_reach p -> (negotiations (browser (current p)) <= 1)%nat.

(** ** Sample runs *)

(** A second stream, for a second answer of [getUserMedia]. *)
Definition granted_again (t : Z) : Env :=
  mkEnv t (Some 2%nat) (fun _ => true) [] [].

(** Record is clicked, and clicked again 100 ms later while the permission
    prompt of the first click is still open. *)
Definition p_clicked : Page :=
  page_step (granted 0) (Deliver RecordClick) initialPage.
Definition p_clicked_twice : Page :=
  page_step (granted 100) (Deliver RecordClick) p_clicked.

(** The first request is granted at 1 s and its handler runs to the end:
    the recording has started. *)
Definition p_first_started : Page :=
  page_step (granted 1000) (Continue 0)
    (page_step (granted 1000) (Continue 0) p_clicked_twice).

(** The second request is granted at 1.5 s and its handler runs to the end
    as well. *)
Definition p_overlapped : Page :=
  page_step (granted_again 1500) (Continue 0)
    (page_step (granted_again 1500) (Continue 0) p_first_started).

(** One click, granted at once, when [Date.now()] reads 100 s. *)
Definition p_recording_at_100s : Page :=
  page_step (granted 100000) (Continue 0)
    (page_step (granted 100000) (Continue 0)
       (page_step (granted 100000) (Deliver RecordClick) initialPage)).

(** * Proofs *)

(** ** Running the script inside a proof

    The reduction [script] evaluates the handlers, the monad and the record
    projections and updates, and nothing else: integer arithmetic, finite
    sets, [getSupportedMimeType], [formatTime] and [sample] stay folded. *)
Declare Reduction script :=
  lazy beta iota zeta delta [
    step recordClick pauseClick saveClick resetApp updateTimer stopRecording
    drawVisualizer onstop ondataavailable setupAudio negotiate
    mediaRecorder_start mediaRecorder_stop mediaRecorder_pause
    mediaRecorder_resume set_rec_state setInterval requestAnimationFrame
    clearInterval cancelAnimationFrame bind var prop host assign render
    effect ret throw final returns g dom browser rec_state rec_mimeType
    rec_stream now getUserMedia isTypeSupported byteFrequencyData
    recordedData mime ext num_sub num_add num_ge totalElapsed negb orb andb
    Nat.eqb Nat.pred enabled phase recordedTime affordances display valid_in
    initial initialGlobals initialDom initialBrowser recordTail
    audioContext_resumed resolved current awaiting with_audioContext
    with_analyser with_microphone with_mediaRecorder with_chunks
    with_selectedMimeType with_selectedExtension with_startTime
    with_timerInterval with_elapsedPausedTime with_pauseStartTime
    with_isRecording with_isPaused with_animationId with_recordBtn_disabled
    with_recordBtn_recording with_pauseBtn_disabled with_pauseBtn_paused
    with_iconPause_display with_iconPlay_display with_pauseBtn_label
    with_stopBtn_disabled with_saveBtn_disabled with_saveBtn_onclick
    with_resetBtn_disabled with_timeDisplay with_statusMessage with_canvas
    with_intervals with_frames with_nextHandle with_stopTasks with_downloads
    with_negotiations audioContext analyser microphone mediaRecorder chunks
    selectedMimeType selectedExtension startTime timerInterval
    elapsedPausedTime pauseStartTime isRecording isPaused animationId
    recordBtn_disabled recordBtn_recording pauseBtn_disabled pauseBtn_paused
    iconPause_display iconPlay_display pauseBtn_label stopBtn_disabled
    saveBtn_disabled saveBtn_onclick resetBtn_disabled timeDisplay
    statusMessage canvas intervals frames nextHandle stopTasks downloads
    negotiations ].

Ltac script_eval :=
  match goal with
  | |- ?G => let G' := eval script in G in change G'
  end.

Ltac script_eval_in H :=
  let T := type of H in
  let T' := eval script in T in
  change T' in H.

#[local] Set Warnings "-clear-no-such-hyp".

Ltac destruct_state s :=
  let x := fresh "x" in
  let d := fresh "d" in
  let b := fresh "b" in
  destruct s as [x d b]; destruct x, d, b.

(** One step of case analysis: use a fact, or split on the variable that
    blocks the evaluation. *)
Ltac break_step :=
  match goal with
  | H : _ /\ _ |- _ => destruct H
  | H : False |- _ => destruct H
  | H : true = false |- _ => discriminate H
  | H : false = true |- _ => discriminate H
  | H : Some _ = None |- _ => discriminate H
  | H : None = Some _ |- _ => discriminate H
  | H : ?x = ?y |- _ => is_var x; subst x
  | H : ?y = ?x |- _ => is_var x; subst x
  | H : rec_state ?r = _ |- _ => is_var r; destruct r; script_eval_in H
  | H : context [match ?x with _ => _ end] |- _ =>
      is_var x; destruct x; script_eval_in H
  | |- context [match ?x with _ => _ end] => is_var x; destruct x; script_eval
  | |- context [getSupportedMimeType ?f] =>
      destruct (getSupportedMimeType f) as [[? ?]|]; script_eval
  | |- context [Z.leb ?a ?b] => destruct (Z.leb_spec a b); script_eval
  end.

Ltac run := script_eval; repeat break_step.

Ltac check_inv :=
  lazy beta delta [Inv session_inv pipeline_inv clock_inv recorder_in];
  script_eval.

Ltac finish :=
  repeat match goal with
         | H : _ |- _ => progress script_eval_in H
         | H : bool_decide _ = true |- _ => apply bool_decide_eq_true in H
         | H : Z.leb _ _ = true |- _ => apply Z.leb_le in H
         | H : Z.leb _ _ = false |- _ => apply Z.leb_gt in H
         end;
  repeat split;
  try (intros; apply bool_decide_eq_false);
  first [ tauto | congruence | lia | discriminate | set_solver ].

(** Start a proof about one event from a state that satisfies [Inv]. *)
Ltac from_inv H s e :=
  let Hs := fresh "Hs" in
  let Hp := fresh "Hp" in
  let Hc := fresh "Hc" in
  destruct H as (Hs & Hp & Hc);
  destruct_state s; destruct e;
  unfold session_inv, recorder_in in Hs;
  unfold pipeline_inv in Hp;
  unfold clock_inv in Hc;
  repeat match goal with
         | H : _ |- _ => progress script_eval_in H
         end.

(** ** The invariant holds in every reachable state *)

Lemma Inv_initial (t : Z) : Inv t initial.
Proof. check_inv. finish. Qed.

Lemma step_Inv (t : Z) (s : State) (e : Env) (ev : Event) :
  Inv t s -> t <= now e -> enabled ev s = true ->
  Inv (now e) (final (step e ev s)).
Proof.
  intros H Ht Hen. from_inv H s e.
  destruct ev; run; check_inv; finish.
Qed.

Lemma reach_Inv (t : Z) (s : State) : reach t s -> Inv t s.
Proof.
  induction 1 as [t | t s e ev _ IH Ht Hen].
  - apply Inv_initial.
  - now apply step_Inv with (t := t).
Qed.

(** The invariant survives the passing of time. *)
Lemma Inv_later (t t' : Z) (s : State) : Inv t s -> t <= t' -> Inv t' s.
Proof.
  intros (Hs & Hp & Hc) Ht. repeat split; try assumption.
  unfold clock_inv in *.
  destruct (isRecording (g s)); [|exact I].
  destruct (startTime (g s)) as [st|]; [|exact Hc].
  destruct (elapsedPausedTime (g s)) as [p|]; [|exact Hc].
  destruct Hc as (Hp0 & Hc). split; [exact Hp0|].
  destruct (isPaused (g s)).
  - destruct (pauseStartTime (g s)) as [ps|]; [|exact Hc]. lia.
  - lia.
Qed.

(** ** Capability negotiation *)

Section Negotiation.

Variable supported : string -> bool.

(** The loop returns [type] exactly when [type] is supported and every
    candidate before it is not. *)
Lemma firstSupported_Some (candidates : list EncodingDescriptor)
    (type : EncodingDescriptor) :
  firstSupported supported candidates = Some type <->
  exists before after,
    candidates = (before ++ type :: after)%list /\
    unsupported_all supported before /\
    supported (mime type) = true.
Proof.
  induction candidates as [|c rest IH]; simpl.
  - split; [discriminate|].
    intros (before & after & Heq & _). now destruct before.
  - destruct (supported (mime c)) eqn:Hc.
    + split.
      * intros [= <-]. exists [], rest. repeat split; [constructor|exact Hc].
      * intros ([|b before] & after & Heq & Hun & Hty).
        -- now injection Heq as -> _.
        -- injection Heq as -> _. inversion Hun; congruence.
    + rewrite IH. split.
      * intros (before & after & -> & Hun & Hty).
        exists (c :: before), after. repeat split; [now constructor|exact Hty].
      * intros ([|b before] & after & Heq & Hun & Hty).
        -- injection Heq as -> _. congruence.
        -- injection Heq as -> ->. inversion Hun; subst.
           now exists before, after.
Qed.

Lemma firstSupported_None (candidates : list EncodingDescriptor) :
  firstSupported supported candidates = None <->
  forall type, In type candidates -> supported (mime type) = false.
Proof.
  induction candidates as [|c rest IH]; simpl.
  - split; [intros _ ? []|reflexivity].
  - destruct (supported (mime c)) eqn:Hc.
    + split; [discriminate|]. intros H. specialize (H c (or_introl eq_refl)).
      congruence.
    + rewrite IH. split.
      * intros H type [<-|Hin]; [exact Hc|now apply H].
      * intros H type Hin. apply H. now right.
Qed.

(** The answer depends on the environment only through what it reports
    for the candidates. *)
Lemma firstSupported_ext (supported' : string -> bool)
    (candidates : list EncodingDescriptor) :
  (forall type, In type candidates ->
                supported' (mime type) = supported (mime type)) ->
  firstSupported supported' candidates = firstSupported supported candidates.
Proof.
  induction candidates as [|c rest IH]; simpl; intros H; [reflexivity|].
  rewrite (H c (or_introl eq_refl)), IH; [reflexivity|].
  intros type Hin. apply H. now right.
Qed.

End Negotiation.

(** C7. [getSupportedMimeType] walks the candidates in their priority order
    and returns the first one the environment supports, as the descriptor
    that carries its file suffix; it returns [None] (null) exactly when no
    candidate is supported; and two environments that answer alike on the
    candidates get the same result. *)
Theorem getSupportedMimeType_first_supported (supported : string -> bool) :
  (forall type,
     getSupportedMimeType supported = Some type <->
     exists before after,
       types = (before ++ type :: after)%list /\
       unsupported_all supported before /\
       supported (mime type) = true) /\
  (getSupportedMimeType supported = None <->
   forall type, In type types -> supported (mime type) = false) /\
  (forall supported' : string -> bool,
     (forall type, In type types ->
                   supported' (mime type) = supported (mime type)) ->
     getSupportedMimeType supported' = getSupportedMimeType supported).
Proof.
  unfold getSupportedMimeType. split; [|split].
  - intros type. apply firstSupported_Some.
  - apply firstSupported_None.
  - intros supported'. apply firstSupported_ext.
Qed.

Lemma getSupportedMimeType_first_supported_witness :
  (forall type : EncodingDescriptor,
     In type types -> (fun _ : string => false) (mime type) = false) /\
  getSupportedMimeType (fun _ => false) = None.
Proof.
  assert (H : forall type : EncodingDescriptor,
            In type types -> (fun _ : string => false) (mime type) = false)
    by reflexivity.
  split; [exact H|].
  exact (proj2 (proj1 (proj2 (getSupportedMimeType_first_supported
                                (fun _ => false)))) H).
Defined.

(** With only WebM on offer the Opus variant wins, with suffix [webm]. *)
Example getSupportedMimeType_webm_only :
  getSupportedMimeType (fun m => String.prefix "audio/webm" m)
  = Some (mkType "audio/webm;codecs=opus" "webm").
Proof. reflexivity. Qed.

(** ** The sample states are reachable *)

Lemma reach_s_recording : reach 0 s_recording.
Proof.
  exact (reach_step 0 initial (granted 0) RecordClick
           (reach_initial 0) (Z.le_refl 0) eq_refl).
Qed.

Lemma reach_s_paused : reach 1000 s_paused.
Proof.
  refine (reach_step 0 s_recording (granted 1000) PauseClick
            reach_s_recording _ eq_refl).
  simpl. lia.
Qed.

Lemma reach_s_paused_late : reach 3600500 s_paused_late.
Proof.
  assert (Hticked : reach 3599900 s_ticked).
  { refine (reach_step 0 s_recording (granted 3599900) (TimerTick 0%nat)
              reach_s_recording _ eq_refl).
    vm_compute. discriminate. }
  refine (reach_step 3599900 s_ticked (granted 3600500) PauseClick
            Hticked _ eq_refl).
  vm_compute. discriminate.
Qed.

Lemma reach_s_stopping : reach 2000 s_stopping.
Proof.
  refine (reach_step 0 s_recording (granted 2000) StopClick
            reach_s_recording _ eq_refl).
  simpl. lia.
Qed.

Lemma reach_s_stopped : reach 2000 s_stopped.
Proof.
  exact (reach_step 2000 s_stopping (granted 2000) StopTask
           reach_s_stopping (Z.le_refl 2000) eq_refl).
Qed.

Lemma reach_s_unsupported : reach 0 s_unsupported.
Proof.
  exact (reach_step 0 initial (unsupported 0) RecordClick
           (reach_initial 0) (Z.le_refl 0) eq_refl).
Qed.

Example phases_of_samples :
  phase initial = Idle /\ phase s_recording = Recording /\
  phase s_paused = Paused /\ phase s_stopping = Stopped /\
  phase s_stopped = Stopped /\ phase s_unsupported = Idle.
Proof. repeat split; reflexivity. Qed.

(** ** C1: failure of the capture pipeline *)

(** A refused permission leaves nothing behind: only the status line
    changes, so the next record request starts from scratch. *)
Lemma recordClick_permission_denied (e : Env) (s : State) :
  isRecording (g s) = false ->
  audioContext (g s) = None ->
  getUserMedia e = None ->
  step e RecordClick s =
  Ok tt (mkState (g s)
           (with_statusMessage
              "Error: Additional permissions needed or mic not found."
              (dom s))
           (browser s)).
Proof.
  intros Hrec Hctx Hgum. destruct_state s. destruct e.
  script_eval_in Hrec. script_eval_in Hctx. script_eval_in Hgum.
  subst. reflexivity.
Qed.

(** After a refused permission the globals and the browser are as on a
    fresh page, and a retry that is granted starts recording. *)
Example permission_denied_then_retry :
  g (final (step (denied 0) RecordClick initial)) = g initial /\
  browser (final (step (denied 0) RecordClick initial)) = browser initial /\
  phase (final (step (granted 1) RecordClick
                  (final (step (denied 0) RecordClick initial)))) = Recording.
Proof. repeat apply conj; reflexivity. Qed.

(** C1. When the microphone is granted but no candidate encoding is
    supported, the record request surfaces the error and the session stays
    idle with no recorder, but the audio context, the analyser and the
    microphone source it has already created stay in the globals; the next
    record request then skips [setupAudio] and throws on
    [mediaRecorder.start()], whatever the environment now supports, where a
    first attempt in that environment would start recording. *)
Theorem setupAudio_no_encoding_keeps_partial_state :
  step (unsupported 0) RecordClick initial = Ok tt s_unsupported /\
  statusMessage (dom s_unsupported) = "Error: No supported audio format found." /\
  phase s_unsupported = Idle /\
  mediaRecorder (g s_unsupported) = None /\
  audioContext (g s_unsupported) = Some running /\
  analyser (g s_unsupported) = Some (mkAnalyserNode 256) /\
  microphone (g s_unsupported) = Some 1%nat /\
  (forall e : Env, step e RecordClick s_unsupported = Throw TypeError s_unsupported) /\
  (forall t : Z,
     returns (step (granted t) RecordClick initial) = true /\
     phase (final (step (granted t) RecordClick initial)) = Recording).
Proof.
  repeat apply conj; try reflexivity.
  intros t. split; reflexivity.
Qed.

(** ** C6 and C10: the loops stand still outside unpaused recording *)

Lemma phase_Recording (s : State) :
  phase s = Recording <->
  isRecording (g s) = true /\ isPaused (g s) = false.
Proof.
  unfold phase.
  destruct (isRecording (g s)), (isPaused (g s)); cbn;
    try destruct (_ || _); intuition discriminate.
Qed.

Lemma phase_Paused (s : State) :
  phase s = Paused <->
  isRecording (g s) = true /\ isPaused (g s) = true.
Proof.
  unfold phase.
  destruct (isRecording (g s)), (isPaused (g s)); cbn;
    try destruct (_ || _); intuition discriminate.
Qed.

Lemma phase_not_recording (s : State) :
  phase s = Idle \/ phase s = Stopped <-> isRecording (g s) = false.
Proof.
  unfold phase.
  destruct (isRecording (g s)), (isPaused (g s)); cbn;
    try destruct (_ || _); intuition discriminate.
Qed.

(** C6. Whenever the session is not in unpaused [Recording], an invocation
    of [drawVisualizer] returns at its first line: the state after it,
    canvas, [animationId] and the browser's pending frames included, is
    the state before it. The same holds for a frame callback that the
    browser runs although its handle is no longer pending. *)
Theorem drawVisualizer_exits_when_not_recording (e : Env) (s : State)
    (id : Handle) :
  phase s <> Recording ->
  drawVisualizer e s = Ok tt s /\
  (id ∉ frames (browser s) -> step e (AnimationFrame id) s = Ok tt s).
Proof.
  intros Hph.
  assert (Hflags : isRecording (g s) = false \/ isPaused (g s) = true).
  { destruct (isRecording (g s)) eqn:Hrec; [|now left].
    destruct (isPaused (g s)) eqn:Hpau; [now right|].
    exfalso. apply Hph. now apply phase_Recording. }
  clear Hph. destruct_state s. script_eval_in Hflags. script_eval.
  split.
  - destruct Hflags as [-> | ->]; [reflexivity|].
    now destruct isRecording0.
  - intros Hid.
    replace (frames0 ∖ {[ id ]}) with frames0 by set_solver.
    destruct Hflags as [-> | ->]; [reflexivity|].
    now destruct isRecording0.
Qed.

Lemma drawVisualizer_exits_witness :
  phase s_paused <> Recording /\
  drawVisualizer (granted 1500) s_paused = Ok tt s_paused.
Proof.
  assert (H : phase s_paused <> Recording) by (vm_compute; discriminate).
  split; [exact H|].
  exact (proj1 (drawVisualizer_exits_when_not_recording
                  (granted 1500) s_paused 1%nat H)).
Defined.

(** C10. Pausing leaves the interval armed; every tick that then fires
    returns at the first line of [updateTimer], whatever the clock reads,
    and changes nothing; and a tick ends a session only if the session was
    not paused and its net elapsed time had reached the maximum. *)
Theorem updateTimer_paused_noop (t : Z) (s : State) (e : Env) :
  reach t s ->
  (phase s = Recording ->
   phase (final (step e PauseClick s)) = Paused /\
   intervals (browser (final (step e PauseClick s))) = intervals (browser s) /\
   exists id, intervals (browser s) = {[ id ]}) /\
  (phase s = Paused ->
   (exists id, timerInterval (g s) = Some id /\
               intervals (browser s) = {[ id ]}) /\
   forall id, step e (TimerTick id) s = Ok tt s) /\
  (isRecording (g s) = true ->
   isRecording (g (final (updateTimer e s))) = false ->
   phase s = Recording /\
   num_ge (totalElapsed (now e) (g s)) MAX_RECORDING_TIME_MS = true).
Proof.
  intros Hreach. apply reach_Inv in Hreach.
  split; [|split].
  - intros Hph. apply phase_Recording in Hph.
    from_inv Hreach s e. run. finish; eauto.
  - intros Hph. apply phase_Paused in Hph.
    from_inv Hreach s e. run. split; [eauto|reflexivity].
  - rewrite phase_Recording. from_inv Hreach s e. run; finish.
Qed.

Lemma updateTimer_paused_noop_witness :
  reach 1000 s_paused /\ phase s_paused = Paused /\
  step (granted 4000000) (TimerTick 0%nat) s_paused = Ok tt s_paused.
Proof.
  split; [exact reach_s_paused|]. split; [reflexivity|].
  destruct (updateTimer_paused_noop 1000 s_paused (granted 4000000)
              reach_s_paused) as (_ & Hpaused & _).
  exact (proj2 (Hpaused eq_refl) 0%nat).
Defined.

(** ** C2: requests outside their state *)

(** The guard table does not hold as worded: in [Stopped] the record button
    is enabled again and a record request starts a new session. *)
Lemma invalid_requests_ignored_fails : ~ invalid_requests_ignored_as_stated.
Proof.
  intros H.
  specialize (H 2000 s_stopped (granted 3000) RecordClick
                reach_s_stopped eq_refl).
  apply (f_equal (fun r => isRecording (g (final r)))) in H.
  vm_compute in H. discriminate H.
Qed.

(** [resetApp] has no guard either: run during a recording it stops it. *)
Example resetApp_while_recording :
  valid_in ResetClick (phase s_recording) = false /\
  phase (final (step (granted 500) ResetClick s_recording)) = Stopped.
Proof. split; reflexivity. Qed.

Lemma recordClick_from_stopped (t : Z) (s : State) (e : Env) :
  reach t s -> phase s = Stopped ->
  returns (step e RecordClick s) = true /\
  phase (final (step e RecordClick s)) = Recording.
Proof.
  intros Hreach Hph. apply reach_Inv in Hreach.
  from_inv Hreach s e. run; finish.
Qed.

Lemma resetApp_stops_session (t : Z) (s : State) (e : Env) :
  reach t s -> isRecording (g s) = true ->
  returns (step e ResetClick s) = true /\
  phase (final (step e ResetClick s)) = Stopped.
Proof.
  intros Hreach Hrec. apply reach_Inv in Hreach.
  from_inv Hreach s e. run; finish.
Qed.

(** C2 (amended). A pause or stop request that arrives in [Idle] or
    [Stopped], and a record request that arrives in [Recording] or [Paused],
    return at the guard: the whole state is unchanged and nothing is thrown.
    A save request before any recording has finished finds no handler.
    A record request in [Stopped] is valid and starts a new session, and
    [resetApp] run in [Recording] or [Paused] stops the session. *)
Theorem guarded_requests_ignored (e : Env) (s : State) :
  (phase s = Idle \/ phase s = Stopped ->
   step e PauseClick s = Ok tt s /\ step e StopClick s = Ok tt s) /\
  (phase s = Recording \/ phase s = Paused ->
   step e RecordClick s = Ok tt s) /\
  (saveBtn_onclick (dom s) = None -> step e SaveClick s = Ok tt s) /\
  (forall t : Z, reach t s -> phase s = Stopped ->
     returns (step e RecordClick s) = true /\
     phase (final (step e RecordClick s)) = Recording) /\
  (forall t : Z, reach t s -> phase s = Recording \/ phase s = Paused ->
     returns (step e ResetClick s) = true /\
     phase (final (step e ResetClick s)) = Stopped).
Proof.
  repeat apply conj.
  - rewrite phase_not_recording. intros Hrec.
    destruct_state s. script_eval_in Hrec. subst. split; reflexivity.
  - rewrite phase_Recording, phase_Paused. intros Hrec.
    assert (Hrec' : isRecording (g s) = true) by tauto. clear Hrec.
    destruct_state s. script_eval_in Hrec'. subst. reflexivity.
  - intros Hsave. destruct_state s. script_eval_in Hsave. subst. reflexivity.
  - intros t. apply recordClick_from_stopped.
  - intros t Hreach Hph. apply resetApp_stops_session with (t := t); [exact Hreach|].
    rewrite phase_Recording, phase_Paused in Hph. tauto.
Qed.

Lemma guarded_requests_ignored_witness :
  step (granted 5) StopClick initial = Ok tt initial /\
  step (granted 5) PauseClick s_stopped = Ok tt s_stopped /\
  step (granted 5) RecordClick s_paused = Ok tt s_paused /\
  phase (final (step (granted 3000) RecordClick s_stopped)) = Recording.
Proof.
  destruct (guarded_requests_ignored (granted 5) initial)
    as (Hidle & _).
  destruct (guarded_requests_ignored (granted 5) s_stopped)
    as (Hstopped & _).
  destruct (guarded_requests_ignored (granted 5) s_paused)
    as (_ & Hpaused & _).
  destruct (guarded_requests_ignored (granted 3000) s_stopped)
    as (_ & _ & _ & Hagain & _).
  split; [|split; [|split]].
  - exact (proj2 (Hidle (or_introl eq_refl))).
  - exact (proj1 (Hstopped (or_intror eq_refl))).
  - exact (Hpaused (or_intror eq_refl)).
  - exact (proj2 (Hagain 2000 reach_s_stopped eq_refl)).
Defined.

(** ** C9: reset *)

(** C9. From any reachable [Stopped] state, however the session went,
    [resetApp] returns and leaves the chunk buffer empty, the cumulative
    paused duration at 0, the time display at 00:00, the ready message, the
    record button enabled, save and reset disabled and the canvas cleared;
    all five affordances and the display then equal those of the initial
    page. *)
Theorem resetApp_restores_initial (t : Z) (s : State) (e : Env) :
  reach t s -> phase s = Stopped ->
  exists s' : State,
    step e ResetClick s = Ok tt s' /\
    chunks (g s') = [] /\
    elapsedPausedTime (g s') = Some 0 /\
    timeDisplay (dom s') = "00:00" /\
    statusMessage (dom s') = "Ready to record" /\
    recordBtn_disabled (dom s') = false /\
    saveBtn_disabled (dom s') = true /\
    resetBtn_disabled (dom s') = true /\
    canvas (dom s') = Cleared /\
    affordances s' = affordances initial /\
    display s' = display initial /\
    (stopTasks (browser s) = O -> phase s' = Idle).
Proof.
  intros Hreach Hph. apply reach_Inv in Hreach.
  from_inv Hreach s e. run; (eexists; split; [reflexivity|]); script_eval; finish.
Qed.

Lemma resetApp_restores_initial_witness :
  reach 2000 s_stopped /\ phase s_stopped = Stopped /\
  exists s' : State,
    step (granted 2500) ResetClick s_stopped = Ok tt s' /\
    affordances s' = affordances initial /\
    display s' = display initial.
Proof.
  split; [exact reach_s_stopped|]. split; [reflexivity|].
  destruct (resetApp_restores_initial 2000 s_stopped (granted 2500)
              reach_s_stopped eq_refl)
    as (s' & Hstep & _ & _ & _ & _ & _ & _ & _ & _ & Haff & Hdis & _).
  exists s'. repeat split; assumption.
Defined.

(** ** C3: auto-stop *)

(** A tick that fires during a pause does not auto-stop. Here the session
    has recorded for 60:00.5 when it is paused, the last tick before the
    pause having shown 59:59; the tick at 60:00.9 finds [isPaused] set and
    returns, although the elapsed time it would compute is above the
    maximum. *)
Lemma auto_stop_on_any_tick_fails : ~ auto_stop_on_any_tick_as_stated.
Proof.
  intros H.
  assert (Hle : 3600500 <= now (granted 3600900))
    by (vm_compute; discriminate).
  destruct (H 3600500 s_paused_late (granted 3600900) 0%nat
              reach_s_paused_late Hle eq_refl eq_refl) as [Hph _].
  vm_compute in Hph. discriminate Hph.
Qed.

Example late_pause_display :
  timeDisplay (dom s_paused_late) = "59:59" /\
  recordedTime 3600900 s_paused_late = Some 3600500 /\
  totalElapsed 3600900 (g s_paused_late) = Some 3600900 /\
  step (granted 3600900) (TimerTick 0%nat) s_paused_late = Ok tt s_paused_late.
Proof. repeat apply conj; reflexivity. Qed.

(** In a run without overlapped record handlers the recorder records
    whenever the session is [Recording]. *)
Lemma recording_recorder_in (t : Z) (s : State) :
  reach t s -> phase s = Recording -> recorder_in recording (g s).
Proof.
  intros Hreach Hph. apply reach_Inv in Hreach.
  apply phase_Recording in Hph. destruct Hreach as (Hs & _ & _).
  unfold session_inv in Hs. destruct Hph as [Hrec Hpau].
  rewrite Hrec, Hpau in Hs. apply Hs.
Qed.

(** C3 (amended). On a tick that runs while the session is [Recording]
    and not paused (in any state, reached or not, whose recorder records),
    with net elapsed time at or above the 60-minute maximum,
    [updateTimer] writes no elapsed reading and runs
    [stopRecording]: the script's variables and the browser are left
    exactly as a stop request would leave them, and so is the page apart
    from the status line. The recorder is stopped and its stop task queued,
    the interval held in [timerInterval] is cleared, the frame held in
    [animationId] is cancelled, record is enabled and pause and stop are
    disabled, and the canvas is cleared. The teardown runs once: afterwards
    [stopRecording] finds [isRecording] cleared, and neither a stop request
    nor a later tick changes a variable of the script or anything in the
    browser. *)
Theorem updateTimer_auto_stop (s : State) (e : Env) (id : Handle) :
  phase s = Recording ->
  recorder_in recording (g s) ->
  num_ge (totalElapsed (now e) (g s)) MAX_RECORDING_TIME_MS = true ->
  exists stopped s' : State,
    step e StopClick s = Ok tt stopped /\
    step e (TimerTick id) s = Ok tt s' /\
    g s' = g stopped /\
    browser s' = browser stopped /\
    (forall text : string,
       with_statusMessage text (dom s') = with_statusMessage text (dom stopped)) /\
    timeDisplay (dom s') = timeDisplay (dom s) /\
    phase s' = Stopped /\
    recorder_in inactive (g s') /\
    stopTasks (browser s') = S (stopTasks (browser s)) /\
    (forall tid : Handle,
       timerInterval (g s) = Some tid -> tid ∉ intervals (browser s')) /\
    (forall fid : Handle,
       animationId (g s) = Some fid -> fid ∉ frames (browser s')) /\
    affordances s' = (false, true, true, saveBtn_disabled (dom s),
                      resetBtn_disabled (dom s)) /\
    canvas (dom s') = Cleared /\
    (forall e' : Env, step e' StopClick s' = Ok tt s') /\
    (forall (e' : Env) (id' : Handle),
       g (final (step e' (TimerTick id') s')) = g s' /\
       browser (final (step e' (TimerTick id') s')) = browser s').
Proof.
  intros Hph Hrec Hge. apply phase_Recording in Hph.
  unfold recorder_in in Hrec.
  destruct_state s. destruct e.
  script_eval_in Hph. script_eval_in Hrec. script_eval_in Hge.
  run; do 2 eexists; (split; [reflexivity|]); (split; [reflexivity|]);
    unfold recorder_in; script_eval;
    repeat match goal with
           | |- _ /\ _ => split
           | |- forall _, _ => intro
           end;
    try reflexivity;
    try (match goal with
         | H : Some _ = Some _ |- _ => injection H as <-
         | H : None = Some _ |- _ => discriminate H
         end; set_solver);
    match goal with
    | e' : Env |- _ => destruct e'; run; reflexivity
    end.
Qed.

Lemma updateTimer_auto_stop_witness :
  reach 0 s_recording /\ phase s_recording = Recording /\
  recorder_in recording (g s_recording) /\
  num_ge (totalElapsed (now (granted 3600000)) (g s_recording))
         MAX_RECORDING_TIME_MS = true /\
  phase (final (step (granted 3600000) (TimerTick 0%nat) s_recording))
  = Stopped.
Proof.
  assert (Hrec : recorder_in recording (g s_recording))
    by (vm_compute; reflexivity).
  split; [exact reach_s_recording|]. split; [reflexivity|].
  split; [exact Hrec|]. split; [reflexivity|].
  destruct (updateTimer_auto_stop s_recording (granted 3600000) 0%nat
              eq_refl Hrec eq_refl)
    as (stopped & s' & _ & Htick & _ & _ & _ & _ & Hph & _).
  rewrite Htick. exact Hph.
Defined.

(** What becomes of the auto-stop message: the recorder's stop task, queued
    by [mediaRecorder.stop()], runs [onstop] after the tick has returned and
    overwrites the status line with the message of every finished
    recording. *)
Lemma auto_stop_message_overwritten (s : State) (e e' : Env) (id : Handle) :
  phase s = Recording ->
  recorder_in recording (g s) ->
  num_ge (totalElapsed (now e) (g s)) MAX_RECORDING_TIME_MS = true ->
  statusMessage (dom (final (step e (TimerTick id) s))) = AUTO_STOPPED /\
  enabled StopTask (final (step e (TimerTick id) s)) = true /\
  statusMessage (dom (final (step e' StopTask
                                (final (step e (TimerTick id) s)))))
  = FINISHED /\
  statusMessage (dom (final (step e' StopTask (final (step e StopClick s)))))
  = FINISHED.
Proof.
  intros Hph Hrec Hge. apply phase_Recording in Hph.
  unfold recorder_in in Hrec.
  destruct_state s. destruct e, e'.
  script_eval_in Hph. script_eval_in Hrec. script_eval_in Hge.
  run; repeat split.
Qed.

Example auto_stop_message_overwritten_sample :
  statusMessage
    (dom (final (step (granted 3600000) (TimerTick 0%nat) s_recording)))
  = AUTO_STOPPED /\
  statusMessage
    (dom (final (step (granted 3600010) StopTask
                   (final (step (granted 3600000) (TimerTick 0%nat)
                             s_recording)))))
  = FINISHED.
Proof. vm_compute. split; reflexivity. Qed.

(** ** C4: pause and resume *)

(** Resume does not clear [pauseStartTime]: the variable keeps the instant
    of the last pause. *)
Lemma resume_clears_pause_start_fails : ~ resume_clears_pause_start_as_stated.
Proof.
  intros H.
  assert (H0 : 0 <= now (granted 1000)) by (vm_compute; discriminate).
  assert (H1 : now (granted 1000) <= now (granted 1000)) by apply Z.le_refl.
  destruct (H 0 s_recording (granted 1000) (granted 1000)
              reach_s_recording eq_refl H0 H1) as (_ & _ & Hclear).
  vm_compute in Hclear. discriminate Hclear.
Qed.

(** C4 (amended). Pausing a recording stores the instant of the pause in
    [pauseStartTime]; the resume that follows adds (now - pauseStart) to
    [elapsedPausedTime] and leaves [pauseStartTime] as it is. A pause and a
    resume at the same instant therefore leave the cumulative paused
    duration, and the net elapsed time read at any instant, unchanged. *)
Theorem pause_resume_accounting (t : Z) (s : State) (e e' : Env) :
  reach t s -> phase s = Recording -> t <= now e -> now e <= now e' ->
  exists (s1 s2 : State) (p : Z),
    step e PauseClick s = Ok tt s1 /\
    step e' PauseClick s1 = Ok tt s2 /\
    phase s1 = Paused /\
    pauseStartTime (g s1) = Some (now e) /\
    phase s2 = Recording /\
    elapsedPausedTime (g s) = Some p /\
    elapsedPausedTime (g s2) = Some (p + (now e' - now e)) /\
    pauseStartTime (g s2) = Some (now e) /\
    (now e' = now e ->
     elapsedPausedTime (g s2) = elapsedPausedTime (g s) /\
     forall n : Z, totalElapsed n (g s2) = totalElapsed n (g s)).
Proof.
  intros Hreach Hph Hle Hle'. apply reach_Inv in Hreach.
  apply phase_Recording in Hph.
  from_inv Hreach s e. destruct e'. run.
  destruct analyser0 as [a|]; [|congruence].
  do 3 eexists. split; [reflexivity|]. split; [reflexivity|].
  script_eval. repeat split; try reflexivity; intros; f_equal; lia.
Qed.

Lemma pause_resume_accounting_witness :
  reach 0 s_recording /\ phase s_recording = Recording /\
  0 <= now (granted 1000) /\ now (granted 1000) <= now (granted 1000) /\
  elapsedPausedTime
    (g (final (step (granted 1000) PauseClick
                 (final (step (granted 1000) PauseClick s_recording)))))
  = elapsedPausedTime (g s_recording).
Proof.
  assert (H0 : 0 <= now (granted 1000)) by (vm_compute; discriminate).
  assert (H1 : now (granted 1000) <= now (granted 1000)) by apply Z.le_refl.
  split; [exact reach_s_recording|]. split; [reflexivity|].
  split; [exact H0|]. split; [exact H1|].
  destruct (pause_resume_accounting 0 s_recording (granted 1000)
              (granted 1000) reach_s_recording eq_refl H0 H1)
    as (s1 & s2 & p & Hs1 & Hs2 & _ & _ & _ & _ & _ & _ & Hsame).
  rewrite Hs1. cbn [final]. rewrite Hs2. cbn [final].
  exact (proj1 (Hsame eq_refl)).
Defined.

(** ** The encoding, when record handlers do not overlap *)

(** In the runs of [reach], where no event is taken while a record handler
    waits, [getSupportedMimeType] is called at most once. Once an encoding
    has been selected, no event changes [selectedMimeType] or
    [selectedExtension] or calls the negotiation again. The one event that
    selects an encoding is the first record request that starts a
    recording: before it nothing had been negotiated, and the choice is
    what [getSupportedMimeType] answered then. *)
Theorem encoding_negotiated_once (t : Z) (s : State) (e : Env) (ev : Event) :
  reach t s -> enabled ev s = true ->
  (negotiations (browser s) <= 1)%nat /\
  (negotiations (browser (final (step e ev s))) <= 1)%nat /\
  (selectedMimeType (g s) <> None ->
   negotiations (browser s) = 1%nat /\
   negotiations (browser (final (step e ev s))) = 1%nat /\
   selectedMimeType (g (final (step e ev s))) = selectedMimeType (g s) /\
   selectedExtension (g (final (step e ev s))) = selectedExtension (g s)) /\
  (selectedMimeType (g s) = None ->
   selectedMimeType (g (final (step e ev s))) <> None ->
   ev = RecordClick /\
   negotiations (browser s) = O /\
   phase (final (step e ev s)) = Recording /\
   exists type : EncodingDescriptor,
     getSupportedMimeType (isTypeSupported e) = Some type /\
     selectedMimeType (g (final (step e ev s))) = Some (mime type) /\
     selectedExtension (g (final (step e ev s))) = Some (ext type)).
Proof.
  intros Hreach Hen. apply reach_Inv in Hreach.
  from_inv Hreach s e.
  destruct ev; run;
    repeat match goal with |- _ /\ _ => split end;
    try lia; try (intros; exfalso; congruence);
    try (intros; repeat split; reflexivity);
    try (intros; repeat split; try reflexivity; eexists;
         repeat split; reflexivity).
Qed.

Lemma encoding_negotiated_once_witness :
  reach 2000 s_stopped /\ enabled RecordClick s_stopped = true /\
  selectedMimeType (g s_stopped) <> None /\
  negotiations (browser (final (step (unsupported 3000) RecordClick s_stopped)))
  = 1%nat /\
  selectedMimeType (g (final (step (unsupported 3000) RecordClick s_stopped)))
  = selectedMimeType (g s_stopped).
Proof.
  assert (Hsel : selectedMimeType (g s_stopped) <> None)
    by (vm_compute; discriminate).
  split; [exact reach_s_stopped|]. split; [reflexivity|]. split; [exact Hsel|].
  destruct (encoding_negotiated_once 2000 s_stopped (unsupported 3000)
              RecordClick reach_s_stopped eq_refl)
    as (_ & _ & Hreuse & _).
  destruct (Hreuse Hsel) as (_ & Hneg & Hmime & _).
  split; [exact Hneg|exact Hmime].
Defined.

(** ** The record handler and its pieces *)

(** [recordClick] is its pieces run one after the other. *)
Lemma recordClick_pieces (e : Env) (s : State) :
  recordClick e s =
  if isRecording (g s) then Ok tt s
  else
    match audioContext (g s) with
    | None =>
        if resolved (setupAudio e s)
        then recordTail e (final (setupAudio e s))
        else Ok tt (final (setupAudio e s))
    | Some suspended => (audioContext_resumed >> recordTail e) s
    | Some running => recordTail e s
    end.
Proof.
  destruct_state s. destruct e. unfold recordClick. run; reflexivity.
Qed.

(** ** Invariants of the page *)

(** A property of the state that every delivered event and every piece of
    the record handler keeps is kept by every step of the page. *)
Section Preservation.

Variable P : State -> Prop.

Hypothesis P_step : forall (s : State) (e : Env) (ev : Event),
  P s -> enabled ev s = true -> P (final (step e ev s)).
Hypothesis P_setupAudio : forall (s : State) (e : Env),
  P s -> P (final (setupAudio e s)).
Hypothesis P_recordTail : forall (s : State) (e : Env),
  P s -> P (final (recordTail e s)).
Hypothesis P_resumed : forall (s : State) (e : Env),
  P s -> P (final ((audioContext_resumed >> recordTail e) s)).

Lemma page_step_preserves (p : Page) (e : Env) (pev : PageEvent) :
  P (current p) -> page_enabled pev p = true ->
  P (current (page_step e pev p)).
Proof.
  intros H Hen. destruct p as [s l]. cbn [current awaiting] in *.
  destruct pev as [ev|i]; cbn [page_step page_enabled] in *.
  - assert (Hstep : P (final (step e ev s))) by now apply P_step.
    destruct ev; try exact Hstep.
    unfold recordBegin. cbn [current awaiting].
    destruct (isRecording (g s)); [exact H|].
    destruct (audioContext (g s)) as [[|]|]; try exact H.
    now apply P_recordTail.
  - unfold continue. cbn [current awaiting].
    destruct (l !! i) as [[|[|]|]|]; cbn [current]; try exact H.
    + now apply P_setupAudio.
    + now apply P_recordTail.
    + now apply P_resumed.
Qed.

Lemma page_reach_preserves (p : Page) :
  P initial -> page_reach p -> P (current p).
Proof.
  intros Hinit. induction 1 as [|p e pev _ IH Hen].
  - exact Hinit.
  - now apply page_step_preserves.
Qed.

End Preservation.

Ltac check_page := lazy beta delta [page_inv page_numbers_inv]; script_eval.

Ltac from_page_inv H s e :=
  unfold page_inv, page_numbers_inv in H; destruct_state s; destruct e;
  repeat match goal with
         | H : _ |- _ => progress script_eval_in H
         end.

Lemma page_inv_initial : page_inv initial.
Proof. check_page. finish. Qed.

Lemma step_page_inv (s : State) (e : Env) (ev : Event) :
  page_inv s -> enabled ev s = true -> page_inv (final (step e ev s)).
Proof.
  intros H Hen. from_page_inv H s e.
  destruct ev; run; check_page; finish.
Qed.

Lemma setupAudio_page_inv (s : State) (e : Env) :
  page_inv s -> page_inv (final (setupAudio e s)).
Proof.
  intros H. from_page_inv H s e. run; check_page; finish.
Qed.

Lemma recordTail_page_inv (s : State) (e : Env) :
  page_inv s -> page_inv (final (recordTail e s)).
Proof.
  intros H. from_page_inv H s e. run; check_page; finish.
Qed.

Lemma resumed_page_inv (s : State) (e : Env) :
  page_inv s ->
  page_inv (final ((audioContext_resumed >> recordTail e) s)).
Proof.
  intros H. from_page_inv H s e. run; check_page; finish.
Qed.

Lemma page_step_inv (p : Page) (e : Env) (pev : PageEvent) :
  page_inv (current p) -> page_enabled pev p = true ->
  page_inv (current (page_step e pev p)).
Proof.
  apply page_step_preserves.
  - apply step_page_inv.
  - apply setupAudio_page_inv.
  - apply recordTail_page_inv.
  - apply resumed_page_inv.
Qed.

Lemma page_reach_inv (p : Page) : page_reach p -> page_inv (current p).
Proof.
  intros H. apply page_reach_preserves; try assumption.
  - apply step_page_inv.
  - apply setupAudio_page_inv.
  - apply recordTail_page_inv.
  - apply resumed_page_inv.
  - apply page_inv_initial.
Qed.

Lemma page_reach_numbers (p : Page) :
  page_reach p -> page_numbers_inv (current p).
Proof.
  intros H. apply page_reach_preserves; try assumption.
  - intros s e ev Hs Hen. from_page_inv Hs s e.
    destruct ev; run; check_page; finish.
  - intros s e Hs. from_page_inv Hs s e. run; check_page; finish.
  - intros s e Hs. from_page_inv Hs s e. run; check_page; finish.
  - intros s e Hs. from_page_inv Hs s e. run; check_page; finish.
  - check_page. finish.
Qed.

(** ** The accounting of the time, with a clock that is never set back *)

Ltac check_clock := lazy beta delta [page_clock_inv]; script_eval.

Ltac from_clock_inv H s e :=
  unfold page_clock_inv in H; destruct_state s; destruct e;
  repeat match goal with
         | H : _ |- _ => progress script_eval_in H
         end.

Lemma page_clock_inv_initial (t : Z) : page_clock_inv t initial.
Proof. check_clock. finish. Qed.

Lemma page_clock_inv_later (t t' : Z) (s : State) :
  page_clock_inv t s -> t <= t' -> page_clock_inv t' s.
Proof.
  unfold page_clock_inv. intros H Ht.
  destruct (startTime (g s)) as [st|]; [|exact H].
  destruct (elapsedPausedTime (g s)) as [p|]; [|exact H].
  destruct H as (Hp & H). split; [exact Hp|].
  destruct (isPaused (g s)).
  - destruct (pauseStartTime (g s)) as [ps|]; [|exact H]. lia.
  - lia.
Qed.

Lemma step_page_clock_inv (t : Z) (s : State) (e : Env) (ev : Event) :
  page_clock_inv t s -> t <= now e -> enabled ev s = true ->
  page_clock_inv (now e) (final (step e ev s)).
Proof.
  intros H Ht Hen. from_clock_inv H s e.
  destruct ev; run; check_clock; finish.
Qed.

Lemma setupAudio_page_clock_inv (t : Z) (s : State) (e : Env) :
  page_clock_inv t s -> t <= now e ->
  page_clock_inv (now e) (final (setupAudio e s)).
Proof.
  intros H Ht. from_clock_inv H s e. run; check_clock; finish.
Qed.

Lemma recordTail_page_clock_inv (t : Z) (s : State) (e : Env) :
  page_clock_inv t s -> t <= now e ->
  page_clock_inv (now e) (final (recordTail e s)).
Proof.
  intros H Ht. from_clock_inv H s e. run; check_clock; finish.
Qed.

Lemma resumed_page_clock_inv (t : Z) (s : State) (e : Env) :
  page_clock_inv t s -> t <= now e ->
  page_clock_inv (now e)
    (final ((audioContext_resumed >> recordTail e) s)).
Proof.
  intros H Ht. from_clock_inv H s e. run; check_clock; finish.
Qed.

Lemma page_step_clock_inv (t : Z) (p : Page) (e : Env) (pev : PageEvent) :
  page_clock_inv t (current p) -> t <= now e ->
  page_enabled pev p = true ->
  page_clock_inv (now e) (current (page_step e pev p)).
Proof.
  intros H Ht Hen. destruct p as [s l]. cbn [current awaiting] in *.
  assert (Hlater : page_clock_inv (now e) s)
    by now apply page_clock_inv_later with (t := t).
  destruct pev as [ev|i]; cbn [page_step page_enabled] in *.
  - assert (Hstep : page_clock_inv (now e) (final (step e ev s)))
      by now apply step_page_clock_inv with (t := t).
    destruct ev; try exact Hstep.
    unfold recordBegin. cbn [current awaiting].
    destruct (isRecording (g s)); [exact Hlater|].
    destruct (audioContext (g s)) as [[|]|]; try exact Hlater.
    now apply recordTail_page_clock_inv with (t := t).
  - unfold continue. cbn [current awaiting].
    destruct (l !! i) as [[|[|]|]|]; cbn [current]; try exact Hlater.
    + now apply setupAudio_page_clock_inv with (t := t).
    + now apply recordTail_page_clock_inv with (t := t).
    + now apply resumed_page_clock_inv with (t := t).
Qed.

Lemma steady_page_reach (t : Z) (p : Page) :
  page_reach_steady t p -> page_reach p.
Proof.
  induction 1 as [t | t p e pev _ IH _ Hen].
  - apply page_reach_initial.
  - now apply page_reach_step.
Qed.

Lemma steady_clock_inv (t : Z) (p : Page) :
  page_reach_steady t p -> page_clock_inv t (current p).
Proof.
  induction 1 as [t | t p e pev _ IH Ht Hen].
  - apply page_clock_inv_initial.
  - now apply page_step_clock_inv with (t := t).
Qed.

(** ** The page contains the runs without overlap *)

(** A record handler that is not interrupted is a run of the page: the
    click, then the continuations of this handler, with nothing in
    between. *)
Lemma recordClick_page_run (t : Z) (s : State) (e : Env) :
  page_reach_steady t (mkPage s []) -> t <= now e ->
  page_reach_steady (now e) (mkPage (final (recordClick e s)) []).
Proof.
  intros H Ht.
  pose proof (steady_step t _ e (Deliver RecordClick) H Ht eq_refl) as H1.
  rewrite recordClick_pieces.
  cbn [page_step] in H1. unfold recordBegin in H1.
  cbn [current awaiting app] in H1.
  destruct (isRecording (g s)); [exact H1|].
  destruct (audioContext (g s)) as [[|]|].
  - exact H1.
  - pose proof (steady_step _ _ e (Continue 0) H1 (Z.le_refl _) eq_refl)
      as H2.
    exact H2.
  - pose proof (steady_step _ _ e (Continue 0) H1 (Z.le_refl _) eq_refl)
      as H2.
    pose proof (steady_step _ _ e (Continue 0) H2 (Z.le_refl _) eq_refl)
      as H3.
    cbn [page_step continue current awaiting lookup list_lookup insert
         list_insert delete list_delete] in H3.
    destruct (resolved (setupAudio e s)); exact H3.
Qed.

Lemma reach_page_reach (t : Z) (s : State) :
  reach t s -> page_reach_steady t (mkPage s []).
Proof.
  induction 1 as [t | t s e ev _ IH Ht Hen].
  - apply steady_initial.
  - destruct ev;
      try exact (steady_step t _ e (Deliver _) IH Ht Hen).
    now apply recordClick_page_run with (t := t).
Qed.

(** ** The sample runs of the page *)

Ltac steady_run_step t e pev :=
  refine (steady_step t _ e pev _ _ _);
  [|vm_compute; discriminate|vm_compute; reflexivity].

Lemma steady_p_clicked_twice : page_reach_steady 100 p_clicked_twice.
Proof.
  unfold p_clicked_twice, p_clicked.
  steady_run_step 0 (granted 100) (Deliver RecordClick).
  steady_run_step 0 (granted 0) (Deliver RecordClick).
  apply steady_initial.
Qed.

Lemma steady_p_first_started : page_reach_steady 1000 p_first_started.
Proof.
  unfold p_first_started.
  steady_run_step 1000 (granted 1000) (Continue 0).
  steady_run_step 100 (granted 1000) (Continue 0).
  apply steady_p_clicked_twice.
Qed.

Lemma steady_p_overlapped : page_reach_steady 1500 p_overlapped.
Proof.
  unfold p_overlapped.
  steady_run_step 1500 (granted_again 1500) (Continue 0).
  steady_run_step 1000 (granted_again 1500) (Continue 0).
  apply steady_p_first_started.
Qed.

Lemma steady_p_recording_at_100s :
  page_reach_steady 100000 p_recording_at_100s.
Proof.
  unfold p_recording_at_100s.
  steady_run_step 100000 (granted 100000) (Continue 0).
  steady_run_step 100000 (granted 100000) (Continue 0).
  steady_run_step 100000 (granted 100000) (Deliver RecordClick).
  apply steady_initial.
Qed.

Lemma page_reach_p_clicked_twice : page_reach p_clicked_twice.
Proof. exact (steady_page_reach _ _ steady_p_clicked_twice). Qed.

Lemma page_reach_p_first_started : page_reach p_first_started.
Proof. exact (steady_page_reach _ _ steady_p_first_started). Qed.

Lemma page_reach_p_overlapped : page_reach p_overlapped.
Proof. exact (steady_page_reach _ _ steady_p_overlapped). Qed.

Lemma page_reach_p_recording_at_100s : page_reach p_recording_at_100s.
Proof. exact (steady_page_reach _ _ steady_p_recording_at_100s). Qed.

(** ** C8: two record requests that overlap *)

(** C8. Record is clicked twice before the permission prompt of the first
    click is answered: both handlers pass the guards of lines 205 and 207
    and wait in [setupAudio]. When the first is granted it negotiates the
    encoding and starts recording; when the second is granted it runs
    [getSupportedMimeType] again, although an encoding has been selected
    and nothing has been torn down, and replaces the recorder that is
    recording by a new one, which it starts. *)
Theorem overlapped_record_requests_negotiate_twice :
  page_reach p_overlapped /\
  awaiting p_clicked_twice = [AwaitGetUserMedia; AwaitGetUserMedia] /\
  negotiations (browser (current p_clicked_twice)) = 0%nat /\
  phase (current p_first_started) = Recording /\
  negotiations (browser (current p_first_started)) = 1%nat /\
  selectedMimeType (g (current p_first_started)) = Some "audio/mp4" /\
  mediaRecorder (g (current p_first_started))
  = Some (mkMediaRecorder recording "audio/mp4" 1%nat) /\
  negotiations (browser (current p_overlapped)) = 2%nat /\
  mediaRecorder (g (current p_overlapped))
  = Some (mkMediaRecorder recording "audio/mp4" 2%nat) /\
  ~ negotiated_at_most_once_as_stated.
Proof.
  split; [exact page_reach_p_overlapped|].
  repeat (split; [reflexivity|]).
  intros H. specialize (H p_overlapped page_reach_p_overlapped).
  vm_compute in H. lia.
Qed.

(** What the two handlers leave behind: two timers and two frame loops, of
    which [stopRecording] clears the ones stored last; the timer of the
    first handler keeps ticking after the stop and writes the time
    display. *)
Example overlapped_record_requests_leak :
  intervals (browser (current p_overlapped)) = {[ 0%nat; 2%nat ]} /\
  frames (browser (current p_overlapped)) = {[ 1%nat; 3%nat ]} /\
  startTime (g (current p_first_started)) = Some 1000 /\
  startTime (g (current p_overlapped)) = Some 1500 /\
  let stopped := page_step (granted 2000) (Deliver StopClick) p_overlapped in
  phase (current stopped) = Stopped /\
  intervals (browser (current stopped)) = {[ 0%nat ]} /\
  frames (browser (current stopped)) = {[ 1%nat ]} /\
  timeDisplay (dom (current stopped)) = "00:00" /\
  timeDisplay
    (dom (current (page_step (granted 7000) (Deliver (TimerTick 0%nat))
                     stopped)))
  = "00:05".
Proof. vm_compute. repeat apply conj; reflexivity. Qed.

(** When the answers arrive together, the setups run first and the rest of
    both handlers after them: the second [mediaRecorder.start()] meets a
    recorder that is recording. *)
Example overlapped_record_requests_throw :
  let setups :=
    page_step (granted_again 1000) (Continue 1)
      (page_step (granted 1000) (Continue 0) p_clicked_twice) in
  let first := page_step (granted 1000) (Continue 0) setups in
  awaiting setups = [AwaitSetupAudio true; AwaitSetupAudio true] /\
  phase (current first) = Recording /\
  recordTail (granted 1000) (current first)
  = Throw InvalidStateError (current first).
Proof. vm_compute. repeat apply conj; reflexivity. Qed.

(** ** C5: the net elapsed time *)

(** A clock that is set back during a recording gives a negative net
    elapsed time: the recording starts when [Date.now()] reads 100 s, and
    a tick reads 39 s. *)
Lemma net_elapsed_nonnegative_fails : ~ net_elapsed_nonnegative_as_stated.
Proof.
  intros H.
  destruct (H p_recording_at_100s (granted 39000)
              page_reach_p_recording_at_100s eq_refl) as (n & Hn & Hpos).
  vm_compute in Hn. injection Hn as <-. lia.
Qed.

Example clock_set_back_display :
  totalElapsed 39000 (g (current p_recording_at_100s)) = Some (-61000) /\
  timeDisplay
    (dom (final (step (granted 39000) (TimerTick 0%nat)
                   (current p_recording_at_100s))))
  = "-2:-1".
Proof. split; reflexivity. Qed.

(** During a recording a delivered event is handled as [step] handles
    it. *)
Lemma deliver_while_recording (e : Env) (ev : Event) (p : Page) :
  isRecording (g (current p)) = true ->
  current (page_step e (Deliver ev) p) = final (step e ev (current p)).
Proof.
  intros Hrec. destruct ev; try reflexivity.
  cbn [page_step step]. unfold recordBegin.
  rewrite recordClick_pieces, Hrec. reflexivity.
Qed.

(** Inside a recording, one event never lowers the recorded time. *)
Lemma step_recordedTime_steady (t : Z) (s : State) (e : Env) (ev : Event) :
  page_clock_inv t s -> t <= now e -> enabled ev s = true ->
  isRecording (g s) = true ->
  isRecording (g (final (step e ev s))) = true ->
  exists a b : Z,
    recordedTime t s = Some a /\
    recordedTime (now e) (final (step e ev s)) = Some b /\
    0 <= a <= b.
Proof.
  intros H Ht Hen Hrec. from_clock_inv H s e.
  destruct ev; run; try (intros; exfalso; finish);
    intros _; do 2 eexists; (split; [reflexivity|]);
    (split; [reflexivity|]); finish.
Qed.

Lemma recording_run_recordedTime (t t' : Z) (p p' : Page) :
  recording_run t p t' p' ->
  page_clock_inv t (current p) -> isRecording (g (current p)) = true ->
  page_clock_inv t' (current p') /\ isRecording (g (current p')) = true /\
  exists a b : Z,
    recordedTime t (current p) = Some a /\
    recordedTime t' (current p') = Some b /\ 0 <= a <= b.
Proof.
  induction 1 as [t t' p Hle | t t' p p' e ev _ IH Hle Hen Hrec'];
    intros Hinv Hrec.
  - split; [now apply page_clock_inv_later with (t := t)|].
    split; [exact Hrec|].
    clear - Hinv Hrec Hle. destruct p as [s l]. cbn [current] in *.
    destruct_state s. unfold page_clock_inv in Hinv. script_eval_in Hinv.
    script_eval_in Hrec. subst. script_eval.
    repeat break_step; do 2 eexists; (split; [reflexivity|]);
      (split; [reflexivity|]); lia.
  - destruct (IH Hinv Hrec) as (Hinv' & Hrec1 & a & b & Ha & Hb & Hab).
    split; [now apply page_step_clock_inv with (t := t')|].
    split; [exact Hrec'|].
    rewrite deliver_while_recording in Hrec' |- * by exact Hrec1.
    destruct (step_recordedTime_steady t' (current p') e ev
                Hinv' Hle Hen Hrec1 Hrec')
      as (b' & c & Hb' & Hc & Hbc).
    exists a, c. rewrite Hb in Hb'. injection Hb' as <-.
    repeat split; try assumption; lia.
Qed.

(** C5 (amended). In every state of a recording, overlapped record
    handlers included, [startTime] and [elapsedPausedTime] are numbers and
    the net elapsed time that [updateTimer] computes at the reading [now]
    of the clock is [now - startTime - elapsedPausedTime]; it is what an
    unpaused tick below the maximum displays. As long as the clock is
    never set back, it is not negative, and between two recording instants
    of one recording, pauses and resumes in between included, it does not
    decrease. *)
Theorem net_elapsed_invariant (p : Page) :
  page_reach p -> isRecording (g (current p)) = true ->
  exists st pz : Z,
    startTime (g (current p)) = Some st /\
    elapsedPausedTime (g (current p)) = Some pz /\
    (forall now : Z, totalElapsed now (g (current p)) = Some (now - st - pz)) /\
    (forall (e : Env) (id : Handle),
       phase (current p) = Recording ->
       now e - st - pz < MAX_RECORDING_TIME_MS ->
       timeDisplay (dom (final (step e (TimerTick id) (current p))))
       = formatTime (Some (now e - st - pz))) /\
    (forall t : Z,
       page_reach_steady t p ->
       (forall now : Z, t <= now -> 0 <= now - st - pz) /\
       (forall (t' : Z) (p' : Page),
          recording_run t p t' p' ->
          phase (current p) = Recording -> phase (current p') = Recording ->
          exists st' pz' : Z,
            startTime (g (current p')) = Some st' /\
            elapsedPausedTime (g (current p')) = Some pz' /\
            0 <= t - st - pz <= t' - st' - pz')).
Proof.
  intros Hreach Hrec. apply page_reach_numbers in Hreach.
  destruct p as [s l]. cbn [current] in *.
  assert (Hnum : exists st pz : Z,
             startTime (g s) = Some st /\ elapsedPausedTime (g s) = Some pz).
  { unfold page_numbers_inv in Hreach.
    destruct (startTime (g s)) as [st|];
      [|destruct Hreach as (Hoff & _); congruence].
    destruct (elapsedPausedTime (g s)) as [pz|]; [|destruct Hreach].
    now exists st, pz. }
  destruct Hnum as (st & pz & Hst & Hp).
  exists st, pz. split; [exact Hst|]. split; [exact Hp|].
  split; [|split].
  - intros now. unfold totalElapsed. now rewrite Hst, Hp.
  - intros e id Hph Hlt. apply phase_Recording in Hph.
    destruct Hph as [_ Hpau]. clear Hreach.
    destruct_state s. destruct e.
    script_eval_in Hrec. script_eval_in Hpau. script_eval_in Hst.
    script_eval_in Hp. script_eval_in Hlt. subst. script_eval.
    match goal with
    | |- context [Z.leb ?a ?b] => destruct (Z.leb_spec a b); [lia|]
    end.
    reflexivity.
  - intros t Hsteady. apply steady_clock_inv in Hsteady.
    cbn [current] in Hsteady. split.
    + intros now Hnow. pose proof Hsteady as Hc.
      unfold page_clock_inv in Hc. rewrite Hst, Hp in Hc.
      destruct Hc as (_ & Hc). destruct (isPaused (g s)).
      * destruct (pauseStartTime (g s)) as [ps|]; [lia|destruct Hc].
      * lia.
    + intros t' p' Hrun Hph Hph'.
      destruct (recording_run_recordedTime t t' _ p' Hrun Hsteady Hrec)
        as (Hinv' & Hrec' & a & b & Ha & Hb & Hab).
      cbn [current] in Ha.
      apply phase_Recording in Hph, Hph'.
      unfold recordedTime, totalElapsed in Ha, Hb.
      destruct Hph as [_ Hpau]. destruct Hph' as [_ Hpau'].
      rewrite Hpau, Hst, Hp in Ha. rewrite Hpau' in Hb.
      destruct (startTime (g (current p'))) as [st'|]; [|discriminate Hb].
      destruct (elapsedPausedTime (g (current p'))) as [pz'|];
        [|discriminate Hb].
      cbn [num_sub] in Ha, Hb.
      injection Ha as <-. injection Hb as <-.
      exists st', pz'. repeat split; lia.
Qed.

Lemma net_elapsed_invariant_witness :
  page_reach p_overlapped /\
  isRecording (g (current p_overlapped)) = true /\
  page_reach_steady 1500 p_overlapped /\
  forall now : Z, 1500 <= now ->
    exists n : Z,
      totalElapsed now (g (current p_overlapped)) = Some n /\ 0 <= n.
Proof.
  assert (Hrec : isRecording (g (current p_overlapped)) = true)
    by (vm_compute; reflexivity).
  split; [exact page_reach_p_overlapped|]. split; [exact Hrec|].
  split; [exact steady_p_overlapped|].
  destruct (net_elapsed_invariant p_overlapped page_reach_p_overlapped Hrec)
    as (st & pz & _ & _ & Htot & _ & Hsteady).
  destruct (Hsteady 1500 steady_p_overlapped) as (Hpos & _).
  intros now Hnow. exists (now - st - pz).
  split; [apply Htot|now apply Hpos].
Defined.

(** A recording that is paused at 1 s and resumed at 3 s. *)
Lemma recording_run_sample :
  recording_run 0 (mkPage s_recording []) 3000
    (page_step (granted 3000) (Deliver PauseClick)
       (page_step (granted 1000) (Deliver PauseClick)
          (mkPage s_recording []))).
Proof.
  refine (recording_event 0 1000 _ _ (granted 3000) PauseClick _ _ _ _);
    [|vm_compute; discriminate|vm_compute; reflexivity
     |vm_compute; reflexivity].
  refine (recording_event 0 0 _ _ (granted 1000) PauseClick _ _ _ _);
    [|vm_compute; discriminate|vm_compute; reflexivity
     |vm_compute; reflexivity].
  apply recording_wait. apply Z.le_refl.
Qed.

(** The scenario of the spec: record at 0s, pause at 5s, resume at 10s,
    observe at 15s: 10s of recording. *)
Example net_elapsed_scenario :
  totalElapsed 15000
    (g (final (step (granted 10000) PauseClick
                 (final (step (granted 5000) PauseClick s_recording)))))
  = Some 10000.
Proof. reflexivity. Qed.

(** * Further properties of the script *)

(** ** The elapsed-time text *)

Lemma padStart2_two_digits (n : Z) :
  0 <= n < 100 -> padStart2 (toString (Some n)) = two_digits n.
Proof.
  intros Hn.
  assert (Hall : forallb
            (fun k => String.eqb (padStart2 (toString (Some (Z.of_nat k))))
                                 (two_digits (Z.of_nat k)))
            (seq 0 100) = true) by (vm_compute; reflexivity).
  rewrite forallb_forall in Hall.
  specialize (Hall (Z.to_nat n)).
  rewrite Z2Nat.id in Hall by lia.
  apply String.eqb_eq, Hall, in_seq. lia.
Qed.

Lemma formatTime_below_100_minutes (ms : Z) :
  0 <= ms < 6000000 ->
  formatTime (Some ms) = mm_ss (ms / 60000) ((ms / 1000) mod 60).
Proof.
  intros Hms.
  assert (Hts : 0 <= ms / 1000 < 6000).
  { split; [apply Z.div_pos; lia|apply Z.div_lt_upper_bound; lia]. }
  assert (Hmin : 0 <= ms / 1000 / 60 < 100).
  { split; [apply Z.div_pos; lia|apply Z.div_lt_upper_bound; lia]. }
  assert (Hsec : 0 <= (ms / 1000) mod 60 < 60) by (apply Z.mod_pos_bound; lia).
  unfold formatTime, mm_ss. cbn [num_floor_div num_rem].
  rewrite Z.rem_mod_nonneg by lia.
  rewrite !padStart2_two_digits by lia.
  rewrite Z.div_div by lia. reflexivity.
Qed.

(** X1. Below 100 minutes [updateTimer] writes exactly five characters:
    the whole minutes and the seconds within the minute of the elapsed
    milliseconds, each with two decimal digits, around a colon. *)
Theorem formatTime_mm_ss (ms : Z) :
  0 <= ms < 6000000 ->
  formatTime (Some ms) = mm_ss (ms / 60000) ((ms / 1000) mod 60) /\
  String.length (formatTime (Some ms)) = 5%nat.
Proof.
  intros Hms. rewrite (formatTime_below_100_minutes ms Hms).
  split; reflexivity.
Qed.

Lemma formatTime_mm_ss_witness :
  0 <= 754000 < 6000000 /\ formatTime (Some 754000) = mm_ss 12 34.
Proof.
  assert (H : 0 <= 754000 < 6000000) by lia.
  split; [exact H|]. exact (proj1 (formatTime_mm_ss 754000 H)).
Defined.

(** ** Two more invariants of the reachable states *)

Lemma negotiated_in_types (supported : string -> bool) :
  match getSupportedMimeType supported with
  | Some type => In type types
  | None => True
  end.
Proof.
  destruct (getSupportedMimeType supported) as [type|] eqn:Hsel; [|exact I].
  apply firstSupported_Some in Hsel.
  destruct Hsel as (before & after & -> & _). apply in_elt.
Qed.

Ltac check_more :=
  lazy beta delta [ui_inv encoding_inv];
  script_eval; cbn [fftSize art_type] in *.

Lemma ui_inv_initial : ui_inv initial.
Proof. check_more. repeat split; discriminate. Qed.

Lemma step_ui_inv (t : Z) (s : State) (e : Env) (ev : Event) :
  Inv t s -> ui_inv s -> enabled ev s = true ->
  ui_inv (final (step e ev s)).
Proof.
  intros H Hui Hen. unfold ui_inv in Hui. from_inv H s e.
  destruct ev; run; check_more; finish.
Qed.

Lemma encoding_inv_initial : encoding_inv initial.
Proof. check_more. repeat split. Qed.

Lemma step_encoding_inv (t : Z) (s : State) (e : Env) (ev : Event) :
  Inv t s -> encoding_inv s -> enabled ev s = true ->
  encoding_inv (final (step e ev s)).
Proof.
  intros H Henc Hen. unfold encoding_inv in Henc. from_inv H s e.
  match goal with
  | supported : string -> bool |- _ =>
      generalize (negotiated_in_types supported)
  end.
  destruct ev; run; intros; check_more; finish.
Qed.

Lemma reach_more (t : Z) (s : State) :
  reach t s -> ui_inv s /\ encoding_inv s.
Proof.
  induction 1 as [t | t s e ev Hreach [IHu IHe] Ht Hen].
  - split; [apply ui_inv_initial|apply encoding_inv_initial].
  - apply reach_Inv in Hreach. split.
    + now apply step_ui_inv with (t := t).
    + now apply step_encoding_inv with (t := t).
Qed.

(** ** The time display *)

Lemma step_timeDisplay (t : Z) (s : State) (e : Env) (ev : Event) :
  page_clock_inv t s -> t <= now e -> enabled ev s = true ->
  timeDisplay (dom (final (step e ev s))) = timeDisplay (dom s) \/
  timeDisplay (dom (final (step e ev s))) = "00:00" \/
  exists ms : Z,
    0 <= ms < MAX_RECORDING_TIME_MS /\
    timeDisplay (dom (final (step e ev s))) = formatTime (Some ms).
Proof.
  intros H Ht Hen. from_clock_inv H s e.
  destruct ev; run;
    first [ left; reflexivity
          | right; left; reflexivity
          | right; right; eexists; split; [|reflexivity]; lia
          | exfalso; finish ].
Qed.

Lemma setupAudio_timeDisplay (s : State) (e : Env) :
  timeDisplay (dom (final (setupAudio e s))) = timeDisplay (dom s).
Proof. destruct_state s. destruct e. run; reflexivity. Qed.

Lemma recordTail_timeDisplay (s : State) (e : Env) :
  timeDisplay (dom (final (recordTail e s))) = timeDisplay (dom s).
Proof. destruct_state s. destruct e. run; reflexivity. Qed.

Lemma resumed_timeDisplay (s : State) (e : Env) :
  timeDisplay (dom (final ((audioContext_resumed >> recordTail e) s)))
  = timeDisplay (dom s).
Proof. destruct_state s. destruct e. run; reflexivity. Qed.

Lemma page_step_timeDisplay (t : Z) (p : Page) (e : Env) (pev : PageEvent) :
  page_clock_inv t (current p) -> t <= now e ->
  page_enabled pev p = true ->
  timeDisplay (dom (current (page_step e pev p)))
  = timeDisplay (dom (current p)) \/
  timeDisplay (dom (current (page_step e pev p))) = "00:00" \/
  exists ms : Z,
    0 <= ms < MAX_RECORDING_TIME_MS /\
    timeDisplay (dom (current (page_step e pev p))) = formatTime (Some ms).
Proof.
  intros H Ht Hen. destruct p as [s l]. cbn [current awaiting] in *.
  destruct pev as [ev|i]; cbn [page_step page_enabled] in *.
  - pose proof (step_timeDisplay t s e ev H Ht Hen) as Hstep.
    destruct ev; try exact Hstep.
    left. unfold recordBegin. cbn [current awaiting].
    destruct (isRecording (g s)); [reflexivity|].
    destruct (audioContext (g s)) as [[|]|]; try reflexivity.
    apply recordTail_timeDisplay.
  - left. unfold continue. cbn [current awaiting].
    destruct (l !! i) as [[|[|]|]|]; cbn [current]; try reflexivity.
    + apply setupAudio_timeDisplay.
    + apply recordTail_timeDisplay.
    + apply resumed_timeDisplay.
Qed.

(** X2. As long as the clock is never set back, the time display reads
    [mm:ss] with minutes and seconds below 60 in every state of the page,
    overlapped record handlers included: the display never shows 60:00,
    since the tick that would write it stops the recording instead. *)
Theorem timeDisplay_stays_below_60 (t : Z) (p : Page) :
  page_reach_steady t p -> display_inv (current p).
Proof.
  induction 1 as [t | t p e pev Hreach IH Ht Hen].
  - exists 0, 0. repeat split; try lia.
  - apply steady_clock_inv in Hreach.
    destruct (page_step_timeDisplay t p e pev Hreach Ht Hen)
      as [Hsame | [Hzero | (ms & Hms & Hfmt)]].
    + destruct IH as (m & sec & Hm & Hsec & Hdis).
      exists m, sec. rewrite Hsame. now repeat split.
    + exists 0, 0. rewrite Hzero. repeat split; try lia.
    + exists (ms / 60000), ((ms / 1000) mod 60).
      unfold MAX_RECORDING_TIME_MS in Hms.
      split; [|split].
      * split; [apply Z.div_pos; lia|apply Z.div_lt_upper_bound; lia].
      * apply Z.mod_pos_bound. lia.
      * rewrite Hfmt. apply formatTime_below_100_minutes. lia.
Qed.

Lemma timeDisplay_stays_below_60_witness :
  page_reach_steady 3600500 (mkPage s_paused_late []) /\
  display_inv (current (mkPage s_paused_late [])).
Proof.
  pose proof (reach_page_reach 3600500 s_paused_late reach_s_paused_late)
    as H.
  split; [exact H|].
  exact (timeDisplay_stays_below_60 3600500 (mkPage s_paused_late []) H).
Defined.

(** The last display before the maximum. *)
Example timeDisplay_last_reading :
  timeDisplay (dom s_paused_late) = mm_ss 59 59.
Proof. reflexivity. Qed.

(** ** Exceptions *)

(** X3. In every state of the page, overlapped record handlers included,
    the stop, save and reset handlers, the timer tick, the animation frame,
    the recorder's stop task and [setupAudio] let no exception escape. The
    rest of the record handler throws exactly at [mediaRecorder.start()],
    when there is no recorder or the recorder is not inactive; the pause
    handler throws exactly when a recording is on and the recorder is
    inactive. *)
Theorem handlers_return_on_page (p : Page) (e : Env) (ev : Event) :
  page_reach p ->
  (ev <> RecordClick -> ev <> PauseClick ->
   returns (step e ev (current p)) = true) /\
  returns (setupAudio e (current p)) = true /\
  (returns (recordTail e (current p)) = false <->
   match mediaRecorder (g (current p)) with
   | Some r => rec_state r <> inactive
   | None => True
   end) /\
  (returns (step e PauseClick (current p)) = false <->
   isRecording (g (current p)) = true /\
   recorder_in inactive (g (current p))).
Proof.
  intros H. apply page_reach_inv in H. destruct p as [s l].
  cbn [current] in *. unfold recorder_in. from_page_inv H s e.
  split; [|split; [|split]].
  - intros Hrec Hpau. destruct ev; try congruence; run; reflexivity.
  - run; reflexivity.
  - run; intuition (congruence || discriminate).
  - run; intuition (congruence || discriminate).
Qed.

Lemma handlers_return_on_page_witness :
  page_reach p_overlapped /\
  returns (step (granted 2000) StopClick (current p_overlapped)) = true /\
  returns (recordTail (granted 2000) (current p_overlapped)) = false.
Proof.
  split; [exact page_reach_p_overlapped|].
  destruct (handlers_return_on_page p_overlapped (granted 2000) StopClick
              page_reach_p_overlapped) as (Hret & _ & Htail & _).
  split.
  - apply Hret; discriminate.
  - apply Htail. vm_compute. discriminate.
Defined.

(** ** Resources and controls during and outside a recording *)

(** X4. In every state of the page the handles that the script has stored
    follow the session: during a recording the interval held in
    [timerInterval] is active, and while [Recording] the frame held in
    [animationId] is pending; outside a recording the stored interval is
    no longer active, and outside [Recording] the stored frame is no longer
    pending. *)
Theorem stored_handles_follow_session (p : Page) :
  page_reach p ->
  (isRecording (g (current p)) = true ->
   exists tid : Handle,
     timerInterval (g (current p)) = Some tid /\
     tid ∈ intervals (browser (current p))) /\
  (phase (current p) = Recording ->
   exists fid : Handle,
     animationId (g (current p)) = Some fid /\
     fid ∈ frames (browser (current p))) /\
  (isRecording (g (current p)) = false ->
   forall tid : Handle,
     timerInterval (g (current p)) = Some tid ->
     tid ∉ intervals (browser (current p))) /\
  (phase (current p) <> Recording ->
   forall fid : Handle,
     animationId (g (current p)) = Some fid ->
     fid ∉ frames (browser (current p))).
Proof.
  intros H. apply page_reach_inv in H. destruct p as [s l].
  cbn [current] in *. rewrite phase_Recording.
  unfold page_inv in H. destruct_state s.
  script_eval_in H. script_eval.
  repeat break_step; (split; [|split; [|split]]); intros;
    try discriminate;
    try (exfalso; intuition congruence);
    first [ eexists; split; [reflexivity|assumption]
          | match goal with
            | H : Some _ = Some _ |- _ => injection H as <-; assumption
            end ].
Qed.

Lemma stored_handles_follow_session_witness :
  page_reach p_overlapped /\
  isRecording (g (current p_overlapped)) = true /\
  exists tid : Handle,
    timerInterval (g (current p_overlapped)) = Some tid /\
    tid ∈ intervals (browser (current p_overlapped)).
Proof.
  split; [exact page_reach_p_overlapped|]. split; [reflexivity|].
  exact (proj1 (stored_handles_follow_session p_overlapped
                  page_reach_p_overlapped) eq_refl).
Defined.

(** X5. In every state of the page the record, pause and stop buttons
    follow [isRecording]: record is disabled and pause and stop are enabled
    exactly during a recording, and the record button carries the class
    [recording] exactly then. While [Paused] the pause button carries the
    class [paused], reads "Resume" and shows the play icon; outside a
    recording it reads "Pause" without the class. *)
Theorem controls_follow_flags (p : Page) :
  page_reach p ->
  (recordBtn_disabled (dom (current p)), pauseBtn_disabled (dom (current p)),
   stopBtn_disabled (dom (current p)))
  = (if isRecording (g (current p)) then (true, false, false)
     else (false, true, true)) /\
  recordBtn_recording (dom (current p)) = isRecording (g (current p)) /\
  (phase (current p) = Paused ->
   pauseBtn_paused (dom (current p)) = true /\
   pauseBtn_label (dom (current p)) = "Resume" /\
   iconPause_display (dom (current p)) = "none" /\
   iconPlay_display (dom (current p)) = "block") /\
  (isRecording (g (current p)) = false ->
   pauseBtn_paused (dom (current p)) = false /\
   pauseBtn_label (dom (current p)) = "Pause" /\
   iconPause_display (dom (current p)) <> "none" /\
   iconPlay_display (dom (current p)) <> "block").
Proof.
  intros H. apply page_reach_inv in H. destruct p as [s l].
  cbn [current] in *. rewrite phase_Paused.
  unfold page_inv in H. destruct_state s.
  script_eval_in H. script_eval.
  repeat break_step;
    repeat match goal with
           | |- _ /\ _ => split
           | |- _ -> _ => intro
           | H : _ /\ _ |- _ => destruct H
           end;
    first [ reflexivity | assumption | discriminate | congruence ].
Qed.

Lemma controls_follow_flags_witness :
  page_reach p_overlapped /\
  recordBtn_recording (dom (current p_overlapped))
  = isRecording (g (current p_overlapped)).
Proof.
  split; [exact page_reach_p_overlapped|].
  exact (proj1 (proj2 (controls_follow_flags p_overlapped
                         page_reach_p_overlapped))).
Defined.

(** ** The finished recording *)

(** X6. Between events the chunk buffer is empty. When the recorder's stop
    task runs, the data it delivers becomes, alone and whole, the finished
    recording, tagged with the selected MIME type; the buffer is empty
    again, save and reset are enabled and the status line says so. *)
Theorem stop_task_builds_artifact (t : Z) (s : State) (e : Env) :
  reach t s ->
  chunks (g s) = [] /\
  (enabled StopTask s = true ->
   exists (m : string) (s' : State),
     step e StopTask s = Ok tt s' /\
     selectedMimeType (g s) = Some m /\
     saveBtn_onclick (dom s') = Some (mkArtifact (recordedData e) (Some m)) /\
     chunks (g s') = [] /\
     stopTasks (browser s') = Nat.pred (stopTasks (browser s)) /\
     saveBtn_disabled (dom s') = false /\
     resetBtn_disabled (dom s') = false /\
     statusMessage (dom s') = FINISHED).
Proof.
  intros Hreach. destruct (reach_more t s Hreach) as (_ & Henc).
  apply reach_Inv in Hreach. unfold encoding_inv in Henc.
  split; [apply Henc|].
  intros Hen. from_inv Hreach s e.
  run; do 2 eexists; (split; [reflexivity|]); script_eval;
    cbn [concat app]; rewrite app_nil_r; repeat split.
Qed.

Lemma stop_task_builds_artifact_witness :
  reach 2000 s_stopping /\ enabled StopTask s_stopping = true /\
  chunks (g s_stopping) = [] /\
  exists (m : string) (s' : State),
    step (granted 2500) StopTask s_stopping = Ok tt s' /\
    saveBtn_onclick (dom s')
    = Some (mkArtifact (recordedData (granted 2500)) (Some m)).
Proof.
  split; [exact reach_s_stopping|]. split; [reflexivity|].
  destruct (stop_task_builds_artifact 2000 s_stopping (granted 2500)
              reach_s_stopping) as (Hempty & Htask).
  split; [exact Hempty|].
  destruct (Htask eq_refl) as (m & s' & Hstep & _ & Hart & _).
  exists m, s'. split; assumption.
Defined.

(** X7. In a reachable state a save request either finds no handler and
    changes nothing, or hands out the last finished recording once more:
    its MIME type and the file suffix are those of one and the same
    candidate encoding, the script's variables and the session state are
    as before, and the handler stays in place for the next save. *)
Theorem save_hands_out_recording (t : Z) (s : State) (e : Env) :
  reach t s ->
  match saveBtn_onclick (dom s) with
  | None => step e SaveClick s = Ok tt s
  | Some a =>
      exists (type : EncodingDescriptor) (s' : State),
        step e SaveClick s = Ok tt s' /\
        In type types /\
        art_type a = Some (mime type) /\
        downloads (browser s')
        = (downloads (browser s) ++ [(a, Some (ext type))])%list /\
        g s' = g s /\
        phase s' = phase s /\
        saveBtn_onclick (dom s') = Some a /\
        statusMessage (dom s') = "Recording saved!"
  end.
Proof.
  intros Hreach. destruct (reach_more t s Hreach) as (_ & Henc).
  clear Hreach. unfold encoding_inv in Henc.
  destruct_state s. script_eval_in Henc. script_eval.
  repeat break_step;
    first [ reflexivity
          | eexists (mkType _ _), _; (split; [reflexivity|]);
            cbn [mime ext]; repeat split; eassumption ].
Qed.

Lemma save_hands_out_recording_witness :
  reach 2000 s_stopped /\
  exists (type : EncodingDescriptor) (s' : State),
    step (granted 2600) SaveClick s_stopped = Ok tt s' /\
    In type types /\
    downloads (browser s')
    = [(mkArtifact [] (Some "audio/mp4"), Some (ext type))].
Proof.
  split; [exact reach_s_stopped|].
  pose proof (save_hands_out_recording 2000 s_stopped (granted 2600)
                reach_s_stopped) as H.
  change (saveBtn_onclick (dom s_stopped))
    with (Some (mkArtifact [] (Some "audio/mp4"))) in H.
  cbv beta iota in H.
  destruct H as (type & s' & Hstep & Hin & _ & Hdown & _).
  exists type, s'. repeat split; assumption.
Defined.

(** X8. No handler ever removes the save handler: once a recording has
    finished, every later state has a save handler, and only the stop task
    of a later recording replaces the recording it holds. In particular
    [resetApp] disables the save button but leaves the old recording in
    the handler. *)
Theorem save_handler_survives (e : Env) (ev : Event) (s : State)
    (a : Artifact) :
  saveBtn_onclick (dom s) = Some a ->
  exists a' : Artifact,
    saveBtn_onclick (dom (final (step e ev s))) = Some a' /\
    (ev <> StopTask -> a' = a).
Proof.
  intros Ha. destruct_state s. destruct e. script_eval_in Ha. subst.
  destruct ev; run; eexists; (split; [reflexivity|]);
    first [ reflexivity | intros Hev; now destruct Hev ].
Qed.

Lemma save_handler_survives_witness :
  saveBtn_onclick (dom s_stopped) = Some (mkArtifact [] (Some "audio/mp4")) /\
  saveBtn_onclick (dom (final (step (granted 2700) ResetClick s_stopped)))
  = Some (mkArtifact [] (Some "audio/mp4")).
Proof.
  assert (H : saveBtn_onclick (dom s_stopped)
              = Some (mkArtifact [] (Some "audio/mp4"))) by reflexivity.
  split; [exact H|].
  destruct (save_handler_survives (granted 2700) ResetClick s_stopped _ H)
    as (a' & Ha' & Hsame).
  rewrite Ha'. f_equal. apply Hsame. discriminate.
Defined.

(** ** The download name *)

Lemma colon_free_app (a b : string) :
  colon_free (a ++ b) = colon_free a && colon_free b.
Proof.
  unfold colon_free. induction a as [|c a IH]; [reflexivity|].
  change (String c a ++ b) with (String c (a ++ b)).
  cbn [list_ascii_of_string forallb]. rewrite IH. apply andb_assoc.
Qed.

Lemma colon_free_replaceColons (s : string) :
  colon_free (replaceColons s) = true.
Proof.
  unfold colon_free. induction s as [|c s IH]; [reflexivity|].
  cbn [replaceColons list_ascii_of_string forallb].
  rewrite IH, andb_true_r.
  destruct (Ascii.eqb c ":") eqn:Hc; [reflexivity|].
  now rewrite Hc.
Qed.

Lemma prefix_append (a b : string) : String.prefix a (a ++ b) = true.
Proof.
  induction a as [|c a IH]; [now destruct b|].
  change (String c a ++ b) with (String c (a ++ b)).
  cbn [String.prefix]. destruct (ascii_dec c c); [exact IH|congruence].
Qed.

Lemma downloadName_colon_free_ext (iso suffix : string) :
  colon_free suffix = true ->
  colon_free (downloadName iso (Some suffix)) = true.
Proof.
  intros Hsuffix. unfold downloadName.
  rewrite !colon_free_app, colon_free_replaceColons, Hsuffix. reflexivity.
Qed.

(** X9. Whenever an encoding has been selected, the name under which a
    recording is downloaded starts with [recording_] and contains no colon,
    whatever text the clock returns: the colons of the time are replaced
    and none of the candidate suffixes has one. *)
Theorem downloadName_has_no_colon (t : Z) (s : State) (iso : string) :
  reach t s -> selectedExtension (g s) <> None ->
  colon_free (downloadName iso (selectedExtension (g s))) = true /\
  String.prefix "recording_" (downloadName iso (selectedExtension (g s)))
  = true.
Proof.
  intros Hreach Hsel. destruct (reach_more t s Hreach) as (_ & Henc).
  destruct Henc as (_ & _ & Henc).
  destruct (selectedExtension (g s)) as [x|]; [|now destruct Hsel].
  destruct (selectedMimeType (g s)) as [m|]; [|destruct Henc].
  destruct Henc as (Hin & _).
  split; [|apply prefix_append].
  apply downloadName_colon_free_ext.
  unfold types in Hin. cbn [In] in Hin.
  destruct Hin as [H|[H|[H|[H|[]]]]]; injection H as _ <-; reflexivity.
Qed.

Lemma downloadName_has_no_colon_witness :
  reach 2000 s_stopped /\ selectedExtension (g s_stopped) <> None /\
  colon_free (downloadName "2026-11-03T10:20:30.000Z"
                (selectedExtension (g s_stopped))) = true.
Proof.
  assert (Hsel : selectedExtension (g s_stopped) <> None)
    by (vm_compute; discriminate).
  split; [exact reach_s_stopped|]. split; [exact Hsel|].
  exact (proj1 (downloadName_has_no_colon 2000 s_stopped _
                  reach_s_stopped Hsel)).
Defined.

Example downloadName_sample :
  downloadName "2026-11-03T10:20:30.000Z" (Some "m4a")
  = "recording_2026-11-03T10-20-30.m4a".
Proof. reflexivity. Qed.

(** ** The visualizer frame *)

Lemma sample_length (n : nat) (data : list Z) :
  length (sample n data) = n.
Proof.
  unfold sample. rewrite length_firstn, length_app, repeat_length. lia.
Qed.

(** X10. A frame that runs while [Recording] paints one spectrum of exactly
    128 magnitudes, half the FFT size that [setupAudio] sets, however many
    values the analyser delivers; it requests the next frame and stores its
    handle in [animationId]. *)
Theorem frame_paints_128_bars (p : Page) (e : Env) (id : Handle) :
  page_reach p -> phase (current p) = Recording ->
  exists (bars : list Z) (s' : State),
    step e (AnimationFrame id) (current p) = Ok tt s' /\
    canvas (dom s') = Spectrum bars /\
    bars = sample 128 (byteFrequencyData e) /\
    length bars = 128%nat /\
    animationId (g s') = Some (nextHandle (browser (current p))) /\
    frames (browser s')
    = {[ nextHandle (browser (current p)) ]}
      ∪ (frames (browser (current p)) ∖ {[ id ]}).
Proof.
  intros H Hph. apply page_reach_inv in H. apply phase_Recording in Hph.
  destruct p as [s l]. cbn [current] in *.
  from_page_inv H s e. run.
  do 2 eexists. split; [reflexivity|]. script_eval.
  unfold frequencyBinCount.
  match goal with
  | H : fftSize _ = 256 |- _ => rewrite H
  end.
  split; [reflexivity|]. split; [reflexivity|].
  split; [apply sample_length|]. split; reflexivity.
Qed.

Lemma frame_paints_128_bars_witness :
  page_reach p_overlapped /\ phase (current p_overlapped) = Recording /\
  exists (bars : list Z) (s' : State),
    step (granted 1516) (AnimationFrame 1%nat) (current p_overlapped)
    = Ok tt s' /\
    canvas (dom s') = Spectrum bars /\ length bars = 128%nat.
Proof.
  assert (Hph : phase (current p_overlapped) = Recording)
    by (vm_compute; reflexivity).
  split; [exact page_reach_p_overlapped|]. split; [exact Hph|].
  destruct (frame_paints_128_bars p_overlapped (granted 1516) 1%nat
              page_reach_p_overlapped Hph)
    as (bars & s' & Hstep & Hcanvas & _ & Hlen & _).
  exists bars, s'. repeat split; assumption.
Defined.

(** ** The capture pipeline over the life of the page *)

Lemma step_keeps_recorder (s : State) (e : Env) (ev : Event)
    (r : MediaRecorder) :
  mediaRecorder (g s) = Some r -> ev <> RecordClick ->
  exists r' : MediaRecorder,
    mediaRecorder (g (final (step e ev s))) = Some r' /\
    rec_mimeType r' = rec_mimeType r /\
    rec_stream r' = rec_stream r /\
    microphone (g (final (step e ev s))) = microphone (g s) /\
    analyser (g (final (step e ev s))) = analyser (g s).
Proof.
  intros Hrec Hev. destruct_state s. destruct e. script_eval_in Hrec. subst.
  destruct ev; try congruence; run;
    eexists; (split; [reflexivity|]); repeat split.
Qed.

Lemma recordTail_keeps_recorder (s : State) (e : Env) (r : MediaRecorder) :
  mediaRecorder (g s) = Some r ->
  exists r' : MediaRecorder,
    mediaRecorder (g (final (recordTail e s))) = Some r' /\
    rec_mimeType r' = rec_mimeType r /\
    rec_stream r' = rec_stream r /\
    microphone (g (final (recordTail e s))) = microphone (g s) /\
    analyser (g (final (recordTail e s))) = analyser (g s).
Proof.
  intros Hrec. destruct_state s. destruct e. script_eval_in Hrec. subst.
  run; eexists; (split; [reflexivity|]); repeat split.
Qed.

Lemma resumed_keeps_recorder (s : State) (e : Env) :
  mediaRecorder (g s) <> None ->
  mediaRecorder (g (final ((audioContext_resumed >> recordTail e) s)))
  <> None.
Proof.
  intros Hrec. destruct_state s. destruct e. script_eval_in Hrec.
  run; congruence.
Qed.

Lemma setupAudio_keeps_recorder (s : State) (e : Env) :
  mediaRecorder (g s) <> None ->
  mediaRecorder (g (final (setupAudio e s))) <> None.
Proof.
  intros Hrec. destruct_state s. destruct e. script_eval_in Hrec.
  run; congruence.
Qed.

Lemma page_step_keeps_recorder (p : Page) (e : Env) (pev : PageEvent) :
  mediaRecorder (g (current p)) <> None ->
  mediaRecorder (g (current (page_step e pev p))) <> None.
Proof.
  intros Hrec. destruct p as [s l]. cbn [current awaiting] in *.
  destruct (mediaRecorder (g s)) as [r|] eqn:Hr; [|congruence].
  destruct pev as [ev|i]; cbn [page_step].
  - assert (Hstep : ev <> RecordClick ->
                    mediaRecorder (g (final (step e ev s))) <> None).
    { intros Hev.
      destruct (step_keeps_recorder s e ev r Hr Hev) as (r' & -> & _).
      discriminate. }
    destruct ev; try (apply Hstep; discriminate).
    unfold recordBegin. cbn [current awaiting].
    destruct (isRecording (g s)); [cbn [current]; congruence|].
    destruct (audioContext (g s)) as [[|]|]; cbn [current]; try congruence.
    destruct (recordTail_keeps_recorder s e r Hr) as (r' & -> & _).
    discriminate.
  - unfold continue. cbn [current awaiting].
    destruct (l !! i) as [[|[|]|]|]; cbn [current]; try congruence.
    + apply setupAudio_keeps_recorder. congruence.
    + destruct (recordTail_keeps_recorder s e r Hr) as (r' & -> & _).
      discriminate.
    + apply resumed_keeps_recorder. congruence.
Qed.

(** X11. Once the recorder exists, the capture pipeline is never taken
    down: after every event and every continuation of a suspended record
    handler there is a recorder whose MIME type is the selected one, a
    microphone source, an analyser and an audio context. A delivered event
    keeps the recorder's stream and MIME type, the microphone source and
    the analyser; only a [setupAudio] that goes on after its await builds
    new ones. *)
Theorem pipeline_never_taken_down (p : Page) (e : Env) (pev : PageEvent)
    (r : MediaRecorder) :
  page_reach p -> page_enabled pev p = true ->
  mediaRecorder (g (current p)) = Some r ->
  (exists r' : MediaRecorder,
     mediaRecorder (g (current (page_step e pev p))) = Some r' /\
     selectedMimeType (g (current (page_step e pev p)))
     = Some (rec_mimeType r')) /\
  audioContext (g (current (page_step e pev p))) <> None /\
  analyser (g (current (page_step e pev p))) <> None /\
  microphone (g (current (page_step e pev p))) <> None /\
  (forall ev : Event,
     pev = Deliver ev ->
     exists r' : MediaRecorder,
       mediaRecorder (g (current (page_step e pev p))) = Some r' /\
       rec_mimeType r' = rec_mimeType r /\
       rec_stream r' = rec_stream r /\
       microphone (g (current (page_step e pev p)))
       = microphone (g (current p)) /\
       analyser (g (current (page_step e pev p)))
       = analyser (g (current p))).
Proof.
  intros Hreach Hen Hrec.
  assert (Hkept : mediaRecorder (g (current (page_step e pev p))) <> None)
    by (apply page_step_keeps_recorder; congruence).
  pose proof (page_step_inv p e pev (page_reach_inv p Hreach) Hen) as Hinv.
  destruct Hinv as (_ & _ & _ & Hpipe & _).
  split; [|split; [|split; [|split]]].
  - destruct (mediaRecorder (g (current (page_step e pev p)))) as [r'|];
      [|congruence].
    exists r'. split; [reflexivity|apply Hpipe].
  - destruct (mediaRecorder (g (current (page_step e pev p))));
      [|congruence].
    destruct (audioContext (g (current (page_step e pev p))));
      [discriminate|tauto].
  - destruct (mediaRecorder (g (current (page_step e pev p))));
      [|congruence].
    destruct (analyser (g (current (page_step e pev p))));
      [discriminate|tauto].
  - destruct (mediaRecorder (g (current (page_step e pev p))));
      [|congruence].
    destruct (microphone (g (current (page_step e pev p))));
      [discriminate|tauto].
  - intros ev ->. clear Hkept Hpipe. destruct p as [s l].
    cbn [current awaiting] in *.
    destruct ev;
      try (apply step_keeps_recorder; [exact Hrec|discriminate]).
    cbn [page_step]. unfold recordBegin. cbn [current awaiting].
    destruct (isRecording (g s));
      [cbn [current]; exists r; repeat split; exact Hrec|].
    destruct (audioContext (g s)) as [[|]|]; cbn [current];
      try (exists r; repeat split; exact Hrec).
    now apply recordTail_keeps_recorder.
Qed.

Lemma pipeline_never_taken_down_witness :
  page_reach p_first_started /\
  page_enabled (Continue 0) p_first_started = true /\
  mediaRecorder (g (current p_first_started))
  = Some (mkMediaRecorder recording "audio/mp4" 1%nat) /\
  audioContext
    (g (current (page_step (granted_again 1500) (Continue 0)
                   p_first_started))) <> None.
Proof.
  assert (Hen : page_enabled (Continue 0) p_first_started = true)
    by (vm_compute; reflexivity).
  assert (Hrec : mediaRecorder (g (current p_first_started))
                 = Some (mkMediaRecorder recording "audio/mp4" 1%nat))
    by (vm_compute; reflexivity).
  split; [exact page_reach_p_first_started|]. split; [exact Hen|].
  split; [exact Hrec|].
  exact (proj1 (proj2 (pipeline_never_taken_down p_first_started
                         (granted_again 1500) (Continue 0)
                         (mkMediaRecorder recording "audio/mp4" 1%nat)
                         page_reach_p_first_started Hen Hrec))).
Defined.

(** X12. A record request made outside a session starts one exactly when
    the recorder already exists, or when there is no audio context yet,
    the microphone is granted and a candidate encoding is supported. The
    session it starts begins at the instant of the request with no paused
    time, so its net elapsed time is 0, on a running audio context, with an
    empty chunk buffer, save and reset disabled and a first frame painted.
    The time display is not touched: it keeps the text of the last session
    until the first tick. *)
Theorem recordClick_starts_fresh_session (t : Z) (s : State) (e : Env) :
  reach t s -> isRecording (g s) = false ->
  (isRecording (g (final (step e RecordClick s))) = true <->
   mediaRecorder (g s) <> None \/
   (audioContext (g s) = None /\ getUserMedia e <> None /\
    getSupportedMimeType (isTypeSupported e) <> None)) /\
  (isRecording (g (final (step e RecordClick s))) = true ->
   startTime (g (final (step e RecordClick s))) = Some (now e) /\
   elapsedPausedTime (g (final (step e RecordClick s))) = Some 0 /\
   totalElapsed (now e) (g (final (step e RecordClick s))) = Some 0 /\
   audioContext (g (final (step e RecordClick s))) = Some running /\
   chunks (g (final (step e RecordClick s))) = [] /\
   saveBtn_disabled (dom (final (step e RecordClick s))) = true /\
   resetBtn_disabled (dom (final (step e RecordClick s))) = true /\
   timeDisplay (dom (final (step e RecordClick s))) = timeDisplay (dom s) /\
   statusMessage (dom (final (step e RecordClick s)))
   = "Recording in progress..." /\
   exists bars : list Z,
     canvas (dom (final (step e RecordClick s))) = Spectrum bars).
Proof.
  intros Hreach Hrec. destruct (reach_more t s Hreach) as (_ & Henc).
  destruct Henc as (Hchunks & _).
  apply reach_Inv in Hreach. from_inv Hreach s e.
  run;
    try match goal with
        | H : ?x <> ?x |- _ => now destruct H
        end;
    (split; [intuition (congruence || discriminate)|]);
    intros Hstarted; try discriminate Hstarted;
    repeat split; try reflexivity;
    first [ f_equal; lia | eexists; reflexivity ].
Qed.

Lemma recordClick_starts_fresh_session_witness :
  reach 2000 s_stopped /\ isRecording (g s_stopped) = false /\
  totalElapsed 5000 (g (final (step (granted 5000) RecordClick s_stopped)))
  = Some 0 /\
  timeDisplay (dom (final (step (granted 5000) RecordClick s_stopped)))
  = timeDisplay (dom s_stopped).
Proof.
  split; [exact reach_s_stopped|]. split; [reflexivity|].
  destruct (recordClick_starts_fresh_session 2000 s_stopped (granted 5000)
              reach_s_stopped eq_refl) as (_ & Hfresh).
  destruct (Hfresh eq_refl)
    as (_ & _ & Hzero & _ & _ & _ & _ & Hdisplay & _).
  split; assumption.
Defined.

(** ** Ending a session, and a setup that failed *)

(** X13. A stop request during a recording, paused or not, returns and
    ends it, in whatever state the script is: the recorder is inactive,
    both flags are cleared, the interval held in [timerInterval] and the
    frame held in [animationId] are taken off the active ones and no other
    is touched, the pause button is back to "Pause" without its class, the
    canvas is cleared, and the stop itself leaves the status line and the
    time display as they are. If the recorder was recording or paused, one
    more stop task is queued and the session is [Stopped]. *)
Theorem stopRecording_ends_session (s : State) (e : Env)
    (r : MediaRecorder) :
  isRecording (g s) = true -> mediaRecorder (g s) = Some r ->
  exists s' : State,
    step e StopClick s = Ok tt s' /\
    recorder_in inactive (g s') /\
    isRecording (g s') = false /\
    isPaused (g s') = false /\
    intervals (browser s')
    = match timerInterval (g s) with
      | Some tid => intervals (browser s) ∖ {[ tid ]}
      | None => intervals (browser s)
      end /\
    frames (browser s')
    = match animationId (g s) with
      | Some fid => frames (browser s) ∖ {[ fid ]}
      | None => frames (browser s)
      end /\
    pauseBtn_label (dom s') = "Pause" /\
    pauseBtn_paused (dom s') = false /\
    canvas (dom s') = Cleared /\
    statusMessage (dom s') = statusMessage (dom s) /\
    timeDisplay (dom s') = timeDisplay (dom s) /\
    (rec_state r <> inactive ->
     stopTasks (browser s') = S (stopTasks (browser s)) /\
     phase s' = Stopped).
Proof.
  intros Hrec Hr. destruct_state s. destruct e.
  script_eval_in Hrec. script_eval_in Hr. subst. destruct r as [[| |] m st].
  all: run; eexists; (split; [reflexivity|]); unfold recorder_in;
    script_eval; repeat split; congruence.
Qed.

Lemma stopRecording_ends_session_witness :
  isRecording (g (current p_overlapped)) = true /\
  mediaRecorder (g (current p_overlapped))
  = Some (mkMediaRecorder recording "audio/mp4" 2%nat) /\
  exists s' : State,
    step (granted 2000) StopClick (current p_overlapped) = Ok tt s' /\
    isRecording (g s') = false /\
    intervals (browser s') = intervals (browser (current p_overlapped)) ∖ {[ 2%nat ]}.
Proof.
  assert (Hrec : isRecording (g (current p_overlapped)) = true)
    by (vm_compute; reflexivity).
  assert (Hr : mediaRecorder (g (current p_overlapped))
               = Some (mkMediaRecorder recording "audio/mp4" 2%nat))
    by (vm_compute; reflexivity).
  split; [exact Hrec|]. split; [exact Hr|].
  destruct (stopRecording_ends_session (current p_overlapped) (granted 2000)
              _ Hrec Hr)
    as (s' & Hstep & _ & Hoff & _ & Hint & _).
  exists s'. split; [exact Hstep|]. split; [exact Hoff|].
  rewrite Hint.
  change (timerInterval (g (current p_overlapped))) with (Some 2%nat).
  reflexivity.
Defined.

(** X14. A setup that found no supported encoding cannot be made good: in
    every state that follows, whatever the events and whatever the
    environment then supports, the audio context is still set, there is
    still no recorder and nothing is being recorded, so every record
    request keeps meeting [mediaRecorder.start()] on [undefined]. *)
Theorem failed_setup_is_permanent (t : Z) (s : State) (e : Env) (ev : Event) :
  reach t s -> enabled ev s = true ->
  audioContext (g s) <> None -> mediaRecorder (g s) = None ->
  audioContext (g (final (step e ev s))) <> None /\
  mediaRecorder (g (final (step e ev s))) = None /\
  isRecording (g (final (step e ev s))) = false /\
  forall e' : Env,
    returns (step e' RecordClick (final (step e ev s))) = false.
Proof.
  intros Hreach Hen Hctx Hrec. apply reach_Inv in Hreach.
  from_inv Hreach s e.
  destruct ev; run;
    try match goal with
        | H : ?x <> ?x |- _ => now destruct H
        end;
    try (exfalso; finish);
    repeat split; first [ discriminate | reflexivity ].
Qed.

Lemma failed_setup_is_permanent_witness :
  reach 0 s_unsupported /\ enabled ResetClick s_unsupported = true /\
  audioContext (g s_unsupported) <> None /\
  mediaRecorder (g s_unsupported) = None /\
  returns (step (granted 9) RecordClick
             (final (step (granted 8) ResetClick s_unsupported))) = false.
Proof.
  assert (Hctx : audioContext (g s_unsupported) <> None)
    by (vm_compute; discriminate).
  assert (Hen : enabled ResetClick s_unsupported = true) by reflexivity.
  assert (Hrec : mediaRecorder (g s_unsupported) = None) by reflexivity.
  split; [exact reach_s_unsupported|]. split; [exact Hen|].
  split; [exact Hctx|]. split; [exact Hrec|].
  destruct (failed_setup_is_permanent 0 s_unsupported (granted 8) ResetClick
              reach_s_unsupported Hen Hctx Hrec) as (_ & _ & _ & Hthrow).
  exact (Hthrow (granted 9)).
Defined.
